(** * SDO_images_collector.py: a shallow embedding and its properties

    The script fetches a directory listing, selects file names from the
    listing's preformatted block and downloads each selected file.

    Part I embeds the script: Python strings as lists of code points, the
    exceptions the script can meet as an error monad, and the network, the
    file system, the logger and the record of the stages entered as an
    explicit world threaded through every stage.  Part II states and
    proves the properties. *)

From Stdlib Require Import NArith ZArith List Bool Ascii String Lia.
From stdpp Require Import base option gmap strings.

Local Open Scope N_scope.

(* ===================================================================== *)
(** * Part I.  The model                                                  *)
(* ===================================================================== *)

(** ** Python [str] values *)

(** A Python string is a sequence of Unicode code points. *)
Definition char : Type := N.
Definition str : Type := list char.

(** A literal of the source, written as a Rocq string (ASCII only). *)
Definition lit (s : string) : str :=
  List.map N_of_ascii (list_ascii_of_string s).
Arguments lit s : simpl never.

Definition str_eqb (a b : str) : bool :=
  if decide (a = b) then true else false.

(** [not s] for a string: the empty string is the only false one. *)
Definition str_is_empty (s : str) : bool :=
  match s with [] => true | _ :: _ => false end.

(** [str.isspace] on one code point; [str.split()] separates on these. *)
Definition isspace (c : char) : bool :=
  ((0x09 <=? c) && (c <=? 0x0D))
  || ((0x1C <=? c) && (c <=? 0x20))
  || (c =? 0x85) || (c =? 0xA0) || (c =? 0x1680)
  || ((0x2000 <=? c) && (c <=? 0x200A))
  || (c =? 0x2028) || (c =? 0x2029) || (c =? 0x202F)
  || (c =? 0x205F) || (c =? 0x3000).

(** Cut [s] at every code point satisfying [p]; the pieces between the
    cuts are kept, empty ones included, so the result is never empty. *)
Fixpoint split_by (p : char -> bool) (s : str) : list str :=
  match s with
  | [] => [[]]
  | c :: s' =>
      if p c then [] :: split_by p s'
      else match split_by p s' with
           | [] => [[c]]
           | w :: ws => (c :: w) :: ws
           end
  end.

(** [s.split(sep)] for a separator of one code point, the only kind the
    script uses (["\n"], ["."], ["_"]). *)
Definition split (sep : char) (s : str) : list str :=
  split_by (N.eqb sep) s.

(** [s.split()]: runs of whitespace separate, empty pieces are dropped. *)
Definition split_ws (s : str) : list str :=
  List.filter (fun w => negb (str_is_empty w)) (split_by isspace s).

Fixpoint startswith (p s : str) : bool :=
  match p, s with
  | [], _ => true
  | _ :: _, [] => false
  | a :: p', b :: s' => (a =? b) && startswith p' s'
  end.

Definition endswith (p s : str) : bool :=
  startswith (rev p) (rev s).

(** [sub in s]. *)
Fixpoint contains (sub s : str) : bool :=
  startswith sub s
  || match s with
     | [] => false
     | _ :: s' => contains sub s'
     end.

(** [s.replace(old, new)] for [old] and [new] of one code point each. *)
Definition replace (old new : char) (s : str) : str :=
  List.map (fun c => if c =? old then new else c) s.

Definition newline : char := 10.
Definition dot : char := 46.
Definition underscore : char := 95.
Definition dash : char := 45.
Definition slash : char := 47.
Definition colon : char := 58.

(** ** Exceptions and the error monad *)

Inductive exn : Type :=
| AttributeError
| IndexError
| TypeError
| ValueError                     (* with its subclasses: UnicodeEncodeError,
                                    urllib3's LocationParseError *)
| RequestException (msg : str)   (* requests.RequestException and subclasses *)
| OSError (msg : str).           (* IOError is OSError *)

Inductive result (A : Type) : Type :=
| Ok (a : A)
| Raise (e : exn).
Arguments Ok {A} a.
Arguments Raise {A} e.

#[global] Instance result_ret : MRet result := fun A a => Ok a.
#[global] Instance result_bind : MBind result := fun A B f m =>
  match m with
  | Ok a => f a
  | Raise e => Raise e
  end.

(** [l[i]] for [i >= 0] and [l[-1]]. *)
Definition getitem {A} (l : list A) (i : nat) : result A :=
  match nth_error l i with
  | Some x => Ok x
  | None => Raise IndexError
  end.

Definition getitem_last {A} (l : list A) : result A :=
  match rev l with
  | x :: _ => Ok x
  | [] => Raise IndexError
  end.

(** ** extract_image_names, lines 34-38: the comprehension *)

(** The condition of the comprehension; [and] does not evaluate its
    right operand when the left one is false. *)
Definition line_selected (type_images : list str) (date_time line : str)
  : result bool :=
  if contains date_time line then
    stem ← getitem (split dot line) 0;
    token ← getitem_last (split underscore stem);
    mret (existsb (str_eqb token) type_images)
  else mret false.

Fixpoint image_names (pre_text : list str) (type_images : list str)
    (date_time : str) : result (list str) :=
  match pre_text with
  | [] => mret []
  | line :: rest =>
      keep ← line_selected type_images date_time line;
      if (keep : bool) then
        name ← getitem (split_ws line) 0;
        names ← image_names rest type_images date_time;
        mret (name :: names)
      else image_names rest type_images date_time
  end.

Definition BASE_IMAGE_DIR : str := lit "images/imagesSDO".

(** ** Values stored in the parameter dictionary *)

Inductive pyval : Type :=
| VNone
| VStr (s : str)
| VList (l : list str).

(** [d.get(k)] and [d.get(k, default)]. *)
Definition dict_get (d : gmap string pyval) (k : string) : pyval :=
  default VNone (d !! k).
Definition dict_get_default (d : gmap string pyval) (k : string)
    (dflt : pyval) : pyval :=
  default dflt (d !! k).

(** Truth value, as [all] and [not] test it. *)
Definition truthy (v : pyval) : bool :=
  match v with
  | VNone => false
  | VStr s => negb (str_is_empty s)
  | VList l => match l with [] => false | _ :: _ => true end
  end.

(** Lines 116-122: the dictionary [main] hands to [download_images]. *)
Definition params_download_images (url_base : str)
    (image_names : list str) (folder_name subfolder_name : str)
  : gmap string pyval :=
  <["url_base" := VStr url_base]>
  (<["image_names" := VList image_names]>
  (<["base_folder" := VStr BASE_IMAGE_DIR]>
  (<["folder_name" := VStr folder_name]>
  (<["subfolder_name" := VStr subfolder_name]> ∅)))).

(** ** os.path.join (posixpath) *)

(** One step of the loop of [posixpath.join]: an absolute component
    discards what was joined so far. *)
Definition join_step (path b : str) : str :=
  if startswith [slash] b then b
  else if str_is_empty path || endswith [slash] path then path ++ b
  else path ++ [slash] ++ b.

Definition posixpath_join (a : str) (p : list str) : str :=
  fold_left join_step p a.

(** [os.fspath]: anything but a string is a TypeError. *)
Definition fspath (v : pyval) : result str :=
  match v with
  | VStr s => Ok s
  | _ => Raise TypeError
  end.

Definition os_path_join (a : pyval) (p : list pyval) : result str :=
  a' ← fspath a;
  p' ← mapM fspath p;
  mret (posixpath_join a' p').

(** A code point that cannot be part of a file name handed to the
    operating system: U+0000, and a surrogate that the UTF-8 file system
    encoding cannot encode (U+D800 to U+DFFF, but for the escapes U+DC80
    to U+DCFF). *)
Definition unencodable (c : char) : bool :=
  (c =? 0)
  || ((0xD800 <=? c) && (c <=? 0xDFFF)
      && negb ((0xDC80 <=? c) && (c <=? 0xDCFF))).

(** [open] and [os.mkdir] raise ValueError on such a path (embedded null
    byte, surrogates not allowed) before they reach the file system;
    [os.path.exists] answers [False]. *)
Definition path_rejected (p : str) : bool := existsb unencodable p.

(** ** The world: file system, network, logger *)

(** What the script needs from the file system.  A failing operation
    reports the message of its OSError and may still have changed the
    file system ([os.makedirs] creates the leading directories one by one,
    a failed write can leave a partial file). *)
Class FileSystem (FS : Type) : Type := {
  (** [os.path.exists] *)
  path_exists : str -> FS -> bool;
  (** [os.makedirs] *)
  makedirs : str -> FS -> option str * FS;
  (** [open(path, "wb")], [write] and the close that ends the [with] *)
  write_file : str -> list Byte.byte -> FS -> option str * FS;
  (** a directory that [os.makedirs] created exists *)
  makedirs_exists : forall p s s',
    makedirs p s = (None, s') -> path_exists p s' = true
}.

Inductive level : Type := INFO | ERROR.

Record log_record : Type := LogRecord {
  levelname : level;
  message : str
}.

(** [requests.Response], the attributes the script reads. *)
Record Response : Type := {
  status_code : Z;
  text : str;
  content : list Byte.byte
}.

(** The stages with effects; entering one is recorded. *)
Inductive call : Type :=
| call_fetch_html_content (url : str)
| call_create_folder_if_not_exists (folder_path : str)
| call_download_image (url file_path : str)
| call_download_images (params : gmap string pyval).

Record world (FS : Type) : Type := World {
  fs : FS;
  logs : list log_record;   (* records emitted, oldest first *)
  gets : list str;          (* URLs requested with GET, oldest first *)
  calls : list call         (* stages entered, oldest first *)
}.
Arguments World {FS} fs logs gets calls.
Arguments fs {FS} w.
Arguments logs {FS} w.
Arguments gets {FS} w.
Arguments calls {FS} w.

(** A computation over the world that returns or raises. *)
Definition M (FS A : Type) : Type := world FS -> result A * world FS.

#[global] Instance M_ret {FS} : MRet (M FS) := fun A a w => (Ok a, w).
#[global] Instance M_bind {FS} : MBind (M FS) := fun A B f m w =>
  match m w with
  | (Ok a, w') => f a w'
  | (Raise e, w') => (Raise e, w')
  end.

(** A pure computation that may raise, run inside [M]. *)
Definition lift {FS A} (r : result A) : M FS A := fun w => (r, w).

(** [try: body except ...: handler]; [handler e] is [None] when no
    [except] clause matches [e]. *)
Definition try_except {FS A} (body : M FS A)
    (handler : exn -> option (M FS A)) : M FS A := fun w =>
  match body w with
  | (Ok a, w') => (Ok a, w')
  | (Raise e, w') =>
      match handler e with
      | Some h => h w'
      | None => (Raise e, w')
      end
  end.

(** [for x in l: body]. *)
Fixpoint for_each {FS A} (l : list A) (body : A -> M FS unit) : M FS unit :=
  match l with
  | [] => mret tt
  | x :: l' => body x;; for_each l' body
  end.

Definition enter {FS} (c : call) : M FS unit := fun w =>
  (Ok tt, World (fs w) (logs w) (gets w) (calls w ++ [c])).

(** The root logger is set to INFO: both levels are emitted. *)
Definition logging_info {FS} (msg : str) : M FS unit := fun w =>
  (Ok tt, World (fs w) (logs w ++ [LogRecord INFO msg]) (gets w) (calls w)).
Definition logging_error {FS} (msg : str) : M FS unit := fun w =>
  (Ok tt, World (fs w) (logs w ++ [LogRecord ERROR msg]) (gets w) (calls w)).

Section Collector.

Context {FS : Type} `{FileSystem FS}.

(** [BeautifulSoup(html, "html.parser").find("pre")] followed by
    [get_text()]: the text of the first pre element, [None] when the
    document has none. *)
Variable soup_find_pre_text : str -> option str.

(** The network: what [requests.get] does for a URL, given the URLs
    requested before.  It raises an exception or returns a response.  The
    exception is a RequestException for the failures the library reports
    itself (connection, timeout, invalid URL); others pass through it
    unwrapped, as urllib3's LocationParseError, a ValueError, for a host
    label of more than 63 characters. *)
Variable network : list str -> str -> exn + Response.

(** The message of the HTTPError that [raise_for_status] builds. *)
Variable http_error_message : Response -> str.

(** [repr] of a list of strings and of [None], as an f-string prints
    them. *)
Variable repr : pyval -> str.

Definition requests_get (url : str) : M FS Response := fun w =>
  let w' := World (fs w) (logs w) (gets w ++ [url]) (calls w) in
  match network (gets w) url with
  | inl e => (Raise e, w')
  | inr response => (Ok response, w')
  end.

(** [Response.raise_for_status]: HTTPError for 4xx and 5xx. *)
Definition raise_for_status (response : Response) : M FS unit :=
  if ((400 <=? status_code response) && (status_code response <? 600))%Z
  then lift (Raise (RequestException (http_error_message response)))
  else mret tt.

(** [os.path.exists]: a path the interpreter refuses does not exist. *)
Definition os_path_exists (p : str) : M FS bool := fun w =>
  (Ok (negb (path_rejected p) && path_exists p (fs w)), w).

(** [os.makedirs]: the leading directories are made first, so an OSError
    on one of them comes first; the [mkdir] of a path the interpreter
    refuses then raises ValueError. *)
Definition os_makedirs (p : str) : M FS unit := fun w =>
  let '(err, fs') := makedirs p (fs w) in
  (match err with
   | Some msg => Raise (OSError msg)
   | None => if path_rejected p then Raise ValueError else Ok tt
   end,
   World fs' (logs w) (gets w) (calls w)).

(** [with open(file_path, "wb") as file: file.write(data)]: [open]
    raises ValueError on a path the interpreter refuses, before anything
    is written. *)
Definition open_write (file_path : str) (data : list Byte.byte)
  : M FS unit := fun w =>
  if path_rejected file_path then (Raise ValueError, w)
  else
    let '(err, fs') := write_file file_path data (fs w) in
    (match err with Some msg => Raise (OSError msg) | None => Ok tt end,
     World fs' (logs w) (gets w) (calls w)).

(** Lines 16-24. *)
Definition fetch_html_content (url : str) : M FS (option str) :=
  enter (call_fetch_html_content url);;
  try_except
    (response ← requests_get url;
     raise_for_status response;;
     mret (Some (text response)))
    (fun e =>
       match e with
       | RequestException msg =>
           Some (logging_error
                   (lit "Error fetching HTML content from " ++ url
                      ++ lit ": " ++ msg);;
                 mret None)
       | _ => None
       end).

(** Lines 27-39. *)
Definition extract_image_names (html_content : str)
    (type_images : list str) (date_time : str) : result (list str) :=
  match soup_find_pre_text html_content with
  | None => Raise AttributeError      (* None has no get_text *)
  | Some pre =>
      let pre_text := split newline pre in
      image_names pre_text type_images date_time
  end.

(** Lines 42-46. *)
Definition create_folder_if_not_exists (folder_path : str) : M FS unit :=
  enter (call_create_folder_if_not_exists folder_path);;
  present ← os_path_exists folder_path;
  if negb present then
    os_makedirs folder_path;;
    logging_info (lit "Created folder: " ++ folder_path)
  else mret tt.

(** Lines 49-60. *)
Definition download_image (url file_path : str) : M FS unit :=
  enter (call_download_image url file_path);;
  try_except
    (response ← requests_get url;
     raise_for_status response;;
     open_write file_path (content response);;
     logging_info (lit "Image saved at " ++ file_path))
    (fun e =>
       match e with
       | RequestException msg =>
           Some (logging_error
                   (lit "Error fetching image from " ++ url
                      ++ lit ": " ++ msg))
       | OSError msg =>
           Some (logging_error
                   (lit "Error saving image at " ++ file_path
                      ++ lit ": " ++ msg))
       | _ => None
       end).

(** What [{v}] prints in an f-string. *)
Definition format (v : pyval) : str :=
  match v with
  | VStr s => s
  | _ => repr v
  end.

(** What [for name in v] iterates over: the items of a list, the
    one-character strings of a string. *)
Definition iter (v : pyval) : result (list str) :=
  match v with
  | VList l => Ok l
  | VStr s => Ok (List.map (fun c => [c]) s)
  | VNone => Raise TypeError
  end.

(** Lines 79-82: the body of the loop. *)
Definition download_one (url_base : pyval) (folder_path name : str)
  : M FS unit :=
  let image_url := format url_base ++ [slash] ++ name in
  let file_path := posixpath_join folder_path [name] in
  download_image image_url file_path.

(** Lines 63-82. *)
Definition download_images (params : gmap string pyval) : M FS unit :=
  enter (call_download_images params);;
  let url_base := dict_get params "url_base" in
  let image_names := dict_get_default params "image_names" (VList []) in
  folder_path ← lift (os_path_join
                        (dict_get params "base_folder")
                        [dict_get params "folder_name";
                         dict_get params "subfolder_name"]);
  if negb (forallb truthy [url_base; image_names; VStr folder_path]) then
    logging_error (lit "Error: Missing required parameters.")
  else
    create_folder_if_not_exists folder_path;;
    names ← lift (iter image_names);
    for_each names (download_one url_base folder_path).

(** Lines 85-124.  The two lines read from standard input are the
    arguments; the banner printed before them is left out. *)
Definition main (image_types_line date_time : str) : M FS unit :=
  let image_types := split_ws image_types_line in
  date ← lift (getitem (split_ws date_time) 0);
  let date_time_parser := replace dash slash date in
  let url_base :=
    lit "https://sdo.gsfc.nasa.gov/assets/img/browse/"
      ++ date_time_parser in
  html_content ← fetch_html_content url_base;
  match html_content with
  | None => mret tt
  | Some html =>
      if str_is_empty html then mret tt
      else
        image_names ← lift (extract_image_names html image_types date_time);
        if (match image_names with [] => true | _ => false end) then
          logging_info (lit "No images found")
        else
          folder_name ← lift (getitem (split_ws date_time) 0);
          time ← lift (getitem (split_ws date_time) 1);
          download_images
            (params_download_images url_base image_names folder_name
               (replace colon dash time));;
          logging_info (lit "Execution completed")
  end.

End Collector.


(** ** Vocabulary of the properties *)

(** The string has a code point that is not whitespace. *)
Definition has_nonspace (s : str) : bool :=
  existsb (fun c => negb (isspace c)) s.

(** The type token of a line, in the words of the specification: the
    text before the first dot, then its last segment between
    underscores. *)
Definition type_token (line : str) : str :=
  List.last (split underscore (hd [] (split dot line))) [].

(** A line passes both filters. *)
Definition line_matches (type_images : list str) (date_time line : str)
  : bool :=
  contains date_time line
  && existsb (str_eqb (type_token line)) type_images.

(** The first whitespace-delimited column of a line. *)
Definition first_column (line : str) : str :=
  hd [] (split_ws line).

Definition is_digit (c : char) : bool := (48 <=? c) && (c <=? 57).

(** [YYYY-MM-DD HH:MM]. *)
Definition timestamp_form (date_time : str) : bool :=
  match date_time with
  | [y1; y2; y3; y4; s1; m1; m2; s2; d1; d2; sp; h1; h2; s3; n1; n2] =>
      forallb is_digit [y1; y2; y3; y4; m1; m2; d1; d2; h1; h2; n1; n2]
      && (s1 =? dash) && (s2 =? dash) && (sp =? 32) && (s3 =? colon)
  | _ => false
  end.

Definition date_part (date_time : str) : str := firstn 10 date_time.
Definition time_part (date_time : str) : str := skipn 11 date_time.

(** The listing URL [main] builds for a timestamp whose first column is
    [date]. *)
Definition listing_url (date : str) : str :=
  lit "https://sdo.gsfc.nasa.gov/assets/img/browse/"
    ++ replace dash slash date.

(** [images/imagesSDO/<YYYY-MM-DD>/<HH-MM>]. *)
Definition destination_folder (date_time : str) : str :=
  BASE_IMAGE_DIR ++ [slash] ++ date_part date_time
    ++ [slash] ++ replace colon dash (time_part date_time).

(** [images/imagesSDO/<YYYY-MM-DD>/<HH-MM>/<filename>]. *)
Definition destination (date_time name : str) : str :=
  destination_folder date_time ++ [slash] ++ name.

(** A response that [raise_for_status] rejects. *)
Definition error_status (response : Response) : bool :=
  ((400 <=? status_code response) && (status_code response <? 600))%Z.

(** The GET of [url] fails in world [w]: the transport raises a
    RequestException, or the status is 4xx or 5xx. *)
Definition get_fails {FS} (network : list str -> str -> exn + Response)
    (url : str) (w : world FS) : bool :=
  match network (gets w) url with
  | inl (RequestException _) => true
  | inl _ => false
  | inr response => error_status response
  end.

(** The download of [url] into [file_path] fails in world [w] with one
    of the exceptions [download_image] has a handler for: the GET raises
    a RequestException or an OSError, the status is 4xx or 5xx, or the
    write raises an OSError. *)
Definition download_fails {FS} `{FileSystem FS}
    (network : list str -> str -> exn + Response)
    (url file_path : str) (w : world FS) : bool :=
  match network (gets w) url with
  | inl (RequestException _) | inl (OSError _) => true
  | inl _ => false
  | inr response =>
      error_status response
      || (negb (path_rejected file_path)
          && match fst (write_file file_path (content response) (fs w)) with
             | Some _ => true
             | None => false
             end)
  end.

(** [requests.get] raises nothing but RequestException. *)
Definition raises_only_request_exceptions
    (network : list str -> str -> exn + Response) : Prop :=
  forall history url e,
    network history url = inl e -> exists msg, e = RequestException msg.


(** ** An in-memory environment, to run the model on examples *)

Record mem_fs : Type := MemFs {
  mem_dirs : list str;
  mem_files : list (str * list Byte.byte)
}.

Definition mem_exists (p : str) (s : mem_fs) : bool :=
  existsb (str_eqb p) (mem_dirs s)
  || existsb (fun f => str_eqb p (fst f)) (mem_files s).

Definition mem_makedirs (p : str) (s : mem_fs) : option str * mem_fs :=
  if str_is_empty p then (Some (lit "No such file or directory"), s)
  else if mem_exists p s then (Some (lit "File exists"), s)
  else (None, MemFs (mem_dirs s ++ [p]) (mem_files s)).

Definition mem_write (p : str) (data : list Byte.byte) (s : mem_fs)
  : option str * mem_fs :=
  if existsb (str_eqb p) (mem_dirs s) then (Some (lit "Is a directory"), s)
  else (None, MemFs (mem_dirs s) ((p, data) :: mem_files s)).

#[global] Program Instance mem_file_system : FileSystem mem_fs := {
  path_exists := mem_exists;
  makedirs := mem_makedirs;
  write_file := mem_write
}.
Next Obligation.
  intros p s s'. unfold mem_makedirs.
  destruct (str_is_empty p); [discriminate|].
  destruct (mem_exists p s); [discriminate|].
  intros [= <-]. unfold mem_exists. cbn.
  rewrite existsb_app. cbn. unfold str_eqb at 2.
  destruct (decide (p = p)); [|congruence].
  now rewrite orb_true_r.
Qed.

(** A listing parser for documents without nested markup: the text
    between the first [<pre>] and the [</pre>] that follows it. *)
Fixpoint after_first (tag s : str) : option str :=
  if startswith tag s then Some (skipn (length tag) s)
  else match s with
       | [] => None
       | _ :: s' => after_first tag s'
       end.

Fixpoint before_first (tag s : str) : str :=
  if startswith tag s then []
  else match s with
       | [] => []
       | c :: s' => c :: before_first tag s'
       end.

Definition plain_find_pre_text (html : str) : option str :=
  rest ← after_first (lit "<pre>") html;
  Some (before_first (lit "</pre>") rest).

Definition empty_world : world mem_fs := World (MemFs [] []) [] [] [].

(** A server that answers every GET with the same response. *)
Definition constant_server (response : Response)
  : list str -> str -> exn + Response :=
  fun _ _ => inr response.

(** A network that is down. *)
Definition unreachable : list str -> str -> exn + Response :=
  fun _ _ => inl (RequestException (lit "connection refused")).

(** A client that refuses every URL with a ValueError, as [requests.get]
    does with urllib3's LocationParseError for [long_label_url]. *)
Definition refusing_client : list str -> str -> exn + Response :=
  fun _ _ => inl ValueError.

(** A URL whose host has a label of 64 characters. *)
Definition long_label_url : str :=
  lit "https://" ++ repeat 97 64 ++ lit ".com/".

Definition plain_message (response : Response) : str := lit "HTTP error".
Definition plain_repr (v : pyval) : str := lit "None".

(** Example data: the timestamp of the prompt, its listing URL and
    folder, and three servers. *)
Definition example_date_time : str := lit "2024-08-02 01:10".
Definition example_url : str :=
  lit "https://sdo.gsfc.nasa.gov/assets/img/browse/2024/08/02".
Definition example_folder : str := lit "images/imagesSDO/2024-08-02/01-10".


Definition listing_without_match : Response :=
  {| status_code := 200;
     text := lit "<html><pre>20240802_011000_1024_0171.jpg 2024-08-02 01:10 1K</pre></html>";
     content := [] |}.

Definition pre_of_three : str :=
  lit "a_HMIIC.jpg 2024-08-02 01:10 1K
b_HMIIF.jpg 2024-08-02 01:10 2K
c_HMIIC.jpg 2024-08-02 01:10 3K".

Definition listing_of_three : Response :=
  {| status_code := 200;
     text := lit "<html><pre>" ++ pre_of_three ++ lit "</pre></html>";
     content := [] |}.

Definition listing_with_absolute_name : Response :=
  {| status_code := 200;
     text := lit "<html><pre>/x_HMIIC.jpg 2024-08-02 01:10 1K</pre></html>";
     content := [Byte.x4a; Byte.x46; Byte.x49; Byte.x46] |}.

(** The world after [create_folder_if_not_exists example_folder] has run
    in the empty world. *)
Definition world_with_folder : world mem_fs :=
  World (MemFs [example_folder] [])
    [LogRecord INFO (lit "Created folder: " ++ example_folder)] []
    [call_create_folder_if_not_exists example_folder].

(** A parameter dictionary that lacks [folder_name]. *)
Definition params_without_folder_name : gmap string pyval :=
  <["url_base" := VStr example_url]>
  (<["image_names" := VList [lit "20240802_011000_1024_HMIIC.jpg"]]>
  (<["base_folder" := VStr BASE_IMAGE_DIR]>
  (<["subfolder_name" := VStr (lit "01-10")]> ∅))).

(** [main] run against the listing whose one file name is absolute. *)
Definition run_with_absolute_name : result unit * world mem_fs :=
  main plain_find_pre_text (constant_server listing_with_absolute_name)
    plain_message plain_repr (lit "HMIIC HMIIF") example_date_time
    empty_world.


(** ** Further vocabulary *)

(** The string has no whitespace code point. *)
Definition no_whitespace (s : str) : bool :=
  forallb (fun c => negb (isspace c)) s.

(** The value is a string, the only kind [os.fspath] accepts here. *)
Definition is_str (v : pyval) : bool :=
  match v with
  | VStr _ => true
  | _ => false
  end.

Definition is_error (record : log_record) : bool :=
  match levelname record with
  | ERROR => true
  | INFO => false
  end.

(** [https://sdo.gsfc.nasa.gov/assets/img/browse/<YYYY>/<MM>/<DD>] for a
    timestamp [YYYY-MM-DD HH:MM]. *)
Definition browse_url (date_time : str) : str :=
  lit "https://sdo.gsfc.nasa.gov/assets/img/browse/"
    ++ firstn 4 date_time ++ [slash]
    ++ firstn 2 (skipn 5 date_time) ++ [slash]
    ++ firstn 2 (skipn 8 date_time).

(** Every GET fails: the transport raises a RequestException or the
    status is an error. *)
Definition network_always_fails
    (network : list str -> str -> exn + Response) : Prop :=
  forall history url,
    match network history url with
    | inl (RequestException _) => True
    | inl _ => False
    | inr response => error_status response = true
    end.

(** ** A read-only file system, to run the model on examples *)

Inductive read_only_fs : Type := ReadOnly.

#[global] Program Instance read_only_file_system : FileSystem read_only_fs := {
  path_exists := fun _ _ => false;
  makedirs := fun _ s => (Some (lit "Read-only file system"), s);
  write_file := fun _ _ s => (Some (lit "Read-only file system"), s)
}.
Next Obligation. intros p s s'. discriminate. Qed.

Definition read_only_world : world read_only_fs := World ReadOnly [] [] [].

Definition empty_page : Response :=
  {| status_code := 200; text := []; content := [] |}.

Definition listing_with_match : Response :=
  {| status_code := 200;
     text := lit "<html><pre>20240802_011000_1024_HMIIC.jpg 2024-08-02 01:10 1K</pre></html>";
     content := [Byte.x4a; Byte.x46; Byte.x49; Byte.x46] |}.

(** A body of ten bytes. *)
Definition ten_bytes : list Byte.byte :=
  [Byte.xff; Byte.xd8; Byte.xff; Byte.xe0; Byte.x00; Byte.x10; Byte.x4a;
   Byte.x46; Byte.x49; Byte.x46].

Definition image_response : Response :=
  {| status_code := 200; text := []; content := ten_bytes |}.

(** A file name that holds U+0000, and one that does not. *)
Definition name_with_nul : str := lit "a" ++ [0] ++ lit "_HMIIC.jpg".
Definition plain_name : str := lit "b_HMIIC.jpg".

(** The world after the download of [a_HMIIC.jpg] has failed with the
    network down. *)
Definition world_after_first_failure : world mem_fs :=
  World (MemFs [] [])
    [LogRecord ERROR
       (lit "Error fetching image from " ++ example_url
          ++ lit "/a_HMIIC.jpg: connection refused")]
    [example_url ++ lit "/a_HMIIC.jpg"]
    [call_download_image (example_url ++ lit "/a_HMIIC.jpg")
       (example_folder ++ lit "/a_HMIIC.jpg")].

(** A dictionary without the three path entries. *)
Definition params_without_paths : gmap string pyval :=
  <["url_base" := VStr example_url]>
  (<["image_names" := VList [lit "20240802_011000_1024_HMIIC.jpg"]]> ∅).

(** A dictionary without [image_names]. *)
Definition params_without_image_names : gmap string pyval :=
  <["url_base" := VStr example_url]>
  (<["base_folder" := VStr BASE_IMAGE_DIR]>
  (<["folder_name" := VStr (lit "2024-08-02")]>
  (<["subfolder_name" := VStr (lit "01-10")]> ∅))).

(** [main] run with a date and no time, against a listing with one
    matching line. *)
Definition run_with_date_only : result unit * world mem_fs :=
  main plain_find_pre_text (constant_server listing_with_match)
    plain_message plain_repr (lit "HMIIC") (lit "2024-08-02") empty_world.

(** [main] run with the timestamp of the prompt against the same
    listing. *)
Definition run_with_match : result unit * world mem_fs :=
  main plain_find_pre_text (constant_server listing_with_match)
    plain_message plain_repr (lit "HMIIC") example_date_time empty_world.

(* ===================================================================== *)
(** * Part II.  Properties                                                *)
(* ===================================================================== *)

(** ** Strings *)

Lemma str_eqb_eq (a b : str) : str_eqb a b = true <-> a = b.
Proof.
  unfold str_eqb. destruct (decide (a = b)); split; congruence.
Qed.

Lemma split_by_not_nil (p : char -> bool) (s : str) : split_by p s <> [].
Proof.
  destruct s as [|c s]; cbn; [discriminate|].
  destruct (p c); [discriminate|].
  destruct (split_by p s); discriminate.
Qed.

Lemma split_by_no_sep (p : char -> bool) (s : str) :
  forallb (fun c => negb (p c)) s = true -> split_by p s = [s].
Proof.
  induction s as [|c s IH]; [reflexivity|].
  cbn [forallb split_by]. intros Hs.
  apply andb_true_iff in Hs as [Hc Hs].
  apply negb_true_iff in Hc. rewrite Hc, (IH Hs). reflexivity.
Qed.

Lemma split_by_app_sep (p : char -> bool) (a : str) (c : char) (b : str) :
  forallb (fun x => negb (p x)) a = true -> p c = true ->
  split_by p (a ++ c :: b) = a :: split_by p b.
Proof.
  intros Ha Hc. induction a as [|x a IH].
  - cbn [app split_by]. rewrite Hc. reflexivity.
  - cbn [forallb] in Ha. apply andb_true_iff in Ha as [Hx Ha].
    apply negb_true_iff in Hx.
    cbn [app split_by]. rewrite Hx, (IH Ha). reflexivity.
Qed.

Lemma split_not_nil (sep : char) (s : str) : split sep s <> [].
Proof. apply split_by_not_nil. Qed.

Lemma getitem_0_hd {A} (d : A) (l : list A) :
  l <> [] -> getitem l 0 = Ok (hd d l).
Proof. destruct l; [congruence | reflexivity]. Qed.

Lemma getitem_last_last {A} (d : A) (l : list A) :
  l <> [] -> getitem_last l = Ok (List.last l d).
Proof.
  intros Hl. unfold getitem_last.
  destruct l as [|x l] using rev_ind; [congruence|].
  rewrite rev_app_distr, last_last. reflexivity.
Qed.

Lemma startswith_has_nonspace (sub s : str) :
  startswith sub s = true -> has_nonspace sub = true -> has_nonspace s = true.
Proof.
  unfold has_nonspace.
  revert s. induction sub as [|a sub IH]; intros s Hs Hn; [discriminate|].
  destruct s as [|b s]; [discriminate|].
  cbn [startswith existsb] in Hs, Hn |- *.
  apply andb_true_iff in Hs as [Hab Hs]. apply N.eqb_eq in Hab. subst b.
  apply orb_true_iff in Hn as [Hn|Hn].
  - rewrite Hn. reflexivity.
  - rewrite (IH s Hs Hn). apply orb_true_r.
Qed.

Lemma contains_has_nonspace (sub s : str) :
  contains sub s = true -> has_nonspace sub = true -> has_nonspace s = true.
Proof.
  intros Hc Hn. induction s as [|b s IH].
  - cbn in Hc. rewrite orb_false_r in Hc.
    exact (startswith_has_nonspace _ _ Hc Hn).
  - cbn [contains] in Hc. apply orb_true_iff in Hc as [Hc|Hc].
    + exact (startswith_has_nonspace _ _ Hc Hn).
    + specialize (IH Hc). unfold has_nonspace in IH |- *.
      cbn [existsb]. rewrite IH. apply orb_true_r.
Qed.

Lemma split_ws_not_nil (s : str) :
  has_nonspace s = true -> split_ws s <> [].
Proof.
  unfold split_ws, has_nonspace.
  induction s as [|c s IH]; intros Hn; [discriminate|].
  cbn [split_by existsb] in Hn |- *.
  destruct (isspace c); cbn [negb orb] in Hn.
  - cbn [List.filter str_is_empty negb]. exact (IH Hn).
  - destruct (split_by isspace s); discriminate.
Qed.

(** ** The comprehension of extract_image_names *)

(** The condition of the comprehension never raises and is the
    conjunction of the two filters. *)
Lemma line_selected_matches (type_images : list str) (date_time line : str) :
  line_selected type_images date_time line
  = Ok (line_matches type_images date_time line).
Proof.
  unfold line_selected, line_matches, type_token.
  destruct (contains date_time line); [|reflexivity].
  rewrite (getitem_0_hd (A := str) [] _ (split_not_nil dot line)). cbn.
  rewrite (getitem_last_last (A := str) [] _ (split_not_nil underscore _)).
  reflexivity.
Qed.

(** When every selected line has a first column, the comprehension
    returns the first columns of the selected lines, in order. *)
Lemma image_names_spec (pre_text type_images : list str) (date_time : str) :
  Forall (fun line => line_matches type_images date_time line = true ->
                      split_ws line <> []) pre_text ->
  image_names pre_text type_images date_time
  = Ok (List.map first_column
          (List.filter (line_matches type_images date_time) pre_text)).
Proof.
  induction 1 as [|line rest Hline _ IH]; [reflexivity|].
  cbn [image_names List.filter]. rewrite line_selected_matches. cbn.
  destruct (line_matches type_images date_time line); [|exact IH].
  rewrite (getitem_0_hd (A := str) [] _ (Hline eq_refl)). cbn.
  rewrite IH. reflexivity.
Qed.

(** The only exception the comprehension can raise is IndexError. *)
Lemma image_names_raises (pre_text type_images : list str) (date_time : str)
    (e : exn) :
  image_names pre_text type_images date_time = Raise e -> e = IndexError.
Proof.
  induction pre_text as [|line rest IH]; [discriminate|].
  cbn [image_names]. rewrite line_selected_matches. cbn.
  destruct (line_matches type_images date_time line); [|exact IH].
  unfold getitem. destruct (nth_error (split_ws line) 0); cbn.
  - destruct (image_names rest type_images date_time); cbn;
      [discriminate | exact IH].
  - congruence.
Qed.

Lemma selected_lines_have_first_column (type_images : list str)
    (date_time : str) (pre_text : list str) :
  has_nonspace date_time = true ->
  Forall (fun line => line_matches type_images date_time line = true ->
                      split_ws line <> []) pre_text.
Proof.
  intros Hn. apply Forall_forall. intros line _ Hm.
  apply andb_true_iff in Hm as [Hc _].
  apply split_ws_not_nil. exact (contains_has_nonspace _ _ Hc Hn).
Qed.

(** ** extract_image_names *)

Section Extractor.

Variable soup_find_pre_text : str -> option str.

Local Abbreviation extract := (extract_image_names soup_find_pre_text).

(** C1.  For a requested timestamp, which has at least one
    non-whitespace character: when the first preformatted block of the
    listing has exactly [N] lines that contain the timestamp and whose
    type token is one of the requested ones, [extract_image_names]
    returns the first columns of those [N] lines, in document order, and
    nothing else. *)
Theorem extract_image_names_returns_matching_lines
    (html pre : str) (type_images : list str) (date_time : str) (N : nat) :
  soup_find_pre_text html = Some pre ->
  has_nonspace date_time = true ->
  length (List.filter (line_matches type_images date_time)
            (split newline pre)) = N ->
  exists names,
    extract html type_images date_time = Ok names
    /\ names = List.map first_column
                 (List.filter (line_matches type_images date_time)
                    (split newline pre))
    /\ length names = N.
Proof.
  intros Hpre Hn HN. eexists. split; [|split; [reflexivity|]].
  - unfold extract_image_names. rewrite Hpre.
    apply image_names_spec, selected_lines_have_first_column, Hn.
  - rewrite length_map. exact HN.
Qed.

(** C5.  [extract_image_names] raises the AttributeError of the missing
    preformatted block exactly when the document has no such block: it
    then returns no value, and a document with a block never raises
    it. *)
Theorem extract_image_names_faults_iff_no_pre
    (html : str) (type_images : list str) (date_time : str) :
  extract html type_images date_time = Raise AttributeError
  <-> soup_find_pre_text html = None.
Proof.
  unfold extract_image_names.
  destruct (soup_find_pre_text html) as [pre|]; split; try congruence.
  intros Hr. apply image_names_raises in Hr. discriminate.
Qed.

(** C10.  For a timestamp with at least one non-whitespace character,
    every line that contains the timestamp has a first column, so the
    comprehension returns a list and [extract_image_names] never raises
    IndexError. *)
Theorem first_column_index_in_bounds (date_time : str) :
  has_nonspace date_time = true ->
  (forall line,
      contains date_time line = true ->
      split_ws line <> []
      /\ getitem (split_ws line) 0 = Ok (first_column line))
  /\ (forall pre_text type_images,
         exists names,
           image_names pre_text type_images date_time = Ok names)
  /\ (forall html type_images,
         extract html type_images date_time <> Raise IndexError).
Proof.
  intros Hn. split; [|split].
  - intros line Hc.
    assert (Hs : split_ws line <> [])
      by (apply split_ws_not_nil; exact (contains_has_nonspace _ _ Hc Hn)).
    split; [exact Hs | exact (getitem_0_hd [] _ Hs)].
  - intros pre_text type_images. eexists.
    apply image_names_spec, selected_lines_have_first_column, Hn.
  - intros html type_images. unfold extract_image_names.
    destruct (soup_find_pre_text html) as [pre|]; [|discriminate].
    rewrite image_names_spec
      by (apply selected_lines_have_first_column, Hn).
    discriminate.
Qed.

End Extractor.

(** C1, the witness: a listing of three lines, two of them selected. *)
Lemma extract_image_names_returns_matching_lines_witness :
  exists names,
    extract_image_names plain_find_pre_text (text listing_of_three)
      [lit "HMIIC"] example_date_time = Ok names
    /\ names = List.map first_column
                 (List.filter
                    (line_matches [lit "HMIIC"] example_date_time)
                    (split newline pre_of_three))
    /\ length names = 2%nat.
Proof.
  apply (extract_image_names_returns_matching_lines plain_find_pre_text
           (text listing_of_three) pre_of_three [lit "HMIIC"]
           example_date_time 2%nat).
  - vm_compute. reflexivity.
  - vm_compute. reflexivity.
  - vm_compute. reflexivity.
Defined.

(** The names that listing yields. *)
Example extract_image_names_of_three :
  extract_image_names plain_find_pre_text (text listing_of_three)
    [lit "HMIIC"] example_date_time
  = Ok [lit "a_HMIIC.jpg"; lit "c_HMIIC.jpg"].
Proof. vm_compute. reflexivity. Qed.

(** Outside the timestamps a user can request: with the empty timestamp
    and the empty type token, the one line of an empty preformatted block
    passes both filters, and the extractor raises IndexError. *)
Example extract_image_names_blank_line_raises :
  plain_find_pre_text (lit "<pre></pre>") = Some []
  /\ length (List.filter (line_matches [[]] []) (split newline [])) = 1%nat
  /\ extract_image_names plain_find_pre_text (lit "<pre></pre>") [[]] []
     = Raise IndexError.
Proof. repeat split; vm_compute; reflexivity. Qed.

(** C10, the witness: the timestamp of the prompt. *)
Lemma first_column_index_in_bounds_witness :
  (forall line,
      contains (lit "2024-08-02 01:10") line = true ->
      split_ws line <> []
      /\ getitem (split_ws line) 0 = Ok (first_column line))
  /\ (forall pre_text type_images,
         exists names,
           image_names pre_text type_images (lit "2024-08-02 01:10")
           = Ok names)
  /\ (forall html type_images,
         extract_image_names plain_find_pre_text html type_images
           (lit "2024-08-02 01:10") <> Raise IndexError).
Proof.
  apply (first_column_index_in_bounds plain_find_pre_text
           (lit "2024-08-02 01:10")).
  vm_compute. reflexivity.
Defined.

(** C2, the counterexample.  The line of the claim is not selected: the
    text before its first dot is [HMIIC_2024-08-02 01:10], whose last
    segment between underscores is the timestamp, not [HMIIC]. *)
Lemma hmiic_prefix_line_not_selected :
  type_token (lit "HMIIC_2024-08-02 01:10.jpg extra")
  = lit "2024-08-02 01:10"
  /\ image_names [lit "HMIIC_2024-08-02 01:10.jpg extra"]
       [lit "HMIIC"] (lit "2024-08-02 01:10") = Ok []
  /\ extract_image_names plain_find_pre_text
       (lit "<pre>HMIIC_2024-08-02 01:10.jpg extra</pre>")
       [lit "HMIIC"] (lit "2024-08-02 01:10") = Ok [].
Proof. repeat split; vm_compute; reflexivity. Qed.

(** C2, as amended.  For the type tokens [{"HMIIC"}] and the timestamp
    [2024-08-02 01:10], a line whose file name ends in [_HMIIC] before
    the extension and whose later columns hold the timestamp is selected
    under that file name, and the same line with [HMIIF] is excluded;
    the line [HMIIC_2024-08-02 01:10.jpg extra] is excluded too. *)
Theorem type_token_suffix_line_selected :
  image_names
    [lit "20240802_011000_1024_HMIIC.jpg 2024-08-02 01:10 extra"]
    [lit "HMIIC"] (lit "2024-08-02 01:10")
  = Ok [lit "20240802_011000_1024_HMIIC.jpg"]
  /\ image_names
       [lit "20240802_011000_1024_HMIIF.jpg 2024-08-02 01:10 extra"]
       [lit "HMIIC"] (lit "2024-08-02 01:10")
     = Ok []
  /\ image_names
       [lit "HMIIC_2024-08-02 01:10.jpg extra"]
       [lit "HMIIC"] (lit "2024-08-02 01:10")
     = Ok []
  /\ extract_image_names plain_find_pre_text
       (lit "<pre>20240802_011000_1024_HMIIC.jpg 2024-08-02 01:10 extra
20240802_011000_1024_HMIIF.jpg 2024-08-02 01:10 extra
HMIIC_2024-08-02 01:10.jpg extra</pre>")
       [lit "HMIIC"] (lit "2024-08-02 01:10")
     = Ok [lit "20240802_011000_1024_HMIIC.jpg"].
Proof. repeat split; vm_compute; reflexivity. Qed.

(** ** Timestamps of the form YYYY-MM-DD HH:MM *)

Lemma digit_not_space (c : char) : is_digit c = true -> isspace c = false.
Proof.
  unfold is_digit, isspace. intros Hd.
  apply andb_true_iff in Hd as [H1 H2].
  apply N.leb_le in H1. apply N.leb_le in H2.
  repeat match goal with
         | |- context [?a <=? ?b] =>
             destruct (N.leb_spec a b); [try lia | try lia]
         | |- context [?a =? ?b] =>
             destruct (N.eqb_spec a b); [try lia | try lia]
         end;
    try reflexivity.
Qed.

Lemma digit_neq (k c : char) :
  (k <? 48) || (57 <? k) = true -> is_digit c = true ->
  (c =? k) = false /\ (k =? c) = false.
Proof.
  unfold is_digit. intros Hk Hd.
  apply andb_true_iff in Hd as [H1 H2].
  apply N.leb_le in H1. apply N.leb_le in H2.
  apply orb_true_iff in Hk as [Hk|Hk]; apply N.ltb_lt in Hk;
    split; apply N.eqb_neq; lia.
Qed.

Lemma timestamp_form_inv (dt : str) :
  timestamp_form dt = true ->
  exists y1 y2 y3 y4 m1 m2 d1 d2 h1 h2 n1 n2,
    dt = [y1; y2; y3; y4; dash; m1; m2; dash; d1; d2; 32;
          h1; h2; colon; n1; n2]
    /\ forallb is_digit [y1; y2; y3; y4; m1; m2; d1; d2; h1; h2; n1; n2]
       = true.
Proof.
  intros Hf. unfold timestamp_form in Hf.
  do 16 (destruct dt as [|? dt]; [discriminate|]).
  destruct dt; [|discriminate].
  do 4 (apply andb_true_iff in Hf as [Hf ?]).
  repeat match goal with
         | H : (_ =? _) = true |- _ => apply N.eqb_eq in H; subst
         end.
  do 12 eexists. split; [reflexivity | exact Hf].
Qed.

(** Break a timestamp of the form into its sixteen code points and
    record what is known of each digit. *)
Ltac timestamp_cases Hf :=
  apply timestamp_form_inv in Hf;
  destruct Hf as (y1 & y2 & y3 & y4 & m1 & m2 & d1 & d2 & h1 & h2
                  & n1 & n2 & -> & Hf);
  cbn [forallb] in Hf;
  repeat (let Hd := fresh "Hd" in apply andb_true_iff in Hf as [Hd Hf]);
  clear Hf.

Ltac digit_facts :=
  repeat match goal with
         | H : is_digit ?c = true |- _ =>
             rewrite ?(proj1 (digit_neq colon c eq_refl H)),
               ?(proj1 (digit_neq dash c eq_refl H)),
               ?(digit_not_space c H),
               ?(proj1 (digit_neq slash c eq_refl H)),
               ?(proj2 (digit_neq slash c eq_refl H));
             revert H
         end;
  intros.

Lemma timestamp_form_split (dt : str) :
  timestamp_form dt = true ->
  split_ws dt = [date_part dt; time_part dt].
Proof.
  intros Hf. timestamp_cases Hf.
  unfold split_ws, date_part, time_part. cbn [firstn skipn].
  change (split_by isspace ?s)
    with (split_by isspace
            ([y1; y2; y3; y4; dash; m1; m2; dash; d1; d2]
               ++ 32 :: [h1; h2; colon; n1; n2])).
  rewrite split_by_app_sep;
    [| cbn [forallb]; digit_facts; reflexivity | reflexivity].
  rewrite split_by_no_sep; [| cbn [forallb]; digit_facts; reflexivity].
  reflexivity.
Qed.

Lemma timestamp_form_folder (dt : str) :
  timestamp_form dt = true ->
  posixpath_join BASE_IMAGE_DIR
    [date_part dt; replace colon dash (time_part dt)]
  = destination_folder dt.
Proof.
  intros Hf. timestamp_cases Hf.
  unfold destination_folder, date_part, time_part, posixpath_join,
    join_step, replace, endswith.
  cbn [firstn skipn List.map fold_left startswith].
  digit_facts. cbn [andb].
  change (str_is_empty BASE_IMAGE_DIR) with false.
  change (startswith (rev [slash]) (rev BASE_IMAGE_DIR)) with false.
  cbn [orb]. rewrite !rev_app_distr. cbn [rev app startswith].
  digit_facts. reflexivity.
Qed.

Lemma timestamp_form_file_path (dt name : str) :
  timestamp_form dt = true ->
  posixpath_join (destination_folder dt) [name]
  = if startswith [slash] name then name else destination dt name.
Proof.
  intros Hf. timestamp_cases Hf.
  unfold destination, destination_folder, date_part, time_part,
    posixpath_join, join_step, replace, endswith.
  cbn [firstn skipn List.map fold_left].
  destruct (startswith [slash] name); [reflexivity|].
  change (str_is_empty (BASE_IMAGE_DIR ++ _)) with false.
  cbn [orb]. rewrite !rev_app_distr. cbn [rev app startswith].
  digit_facts. reflexivity.
Qed.

(** ** The stages with effects *)

Section Stages.

Context {FS : Type} `{FileSystem FS}.
Variable soup_find_pre_text : str -> option str.
Variable network : list str -> str -> exn + Response.
Variable http_error_message : Response -> str.
Variable repr : pyval -> str.

Local Abbreviation fetch := (fetch_html_content network http_error_message).
Local Abbreviation download :=
  (download_image network http_error_message).
Local Abbreviation download_loop url_base folder_path names :=
  (for_each names
     (download_one network http_error_message repr url_base folder_path)).

(** Unfold the monad and the world's accessors. *)
Ltac run_world :=
  unfold mbind, M_bind, mret, M_ret, try_except, enter, lift,
    logging_error, logging_info;
  cbn [fs logs gets calls].

(** [for_each] over a concatenation runs the first part, then the
    second part from the world the first one left. *)
Lemma for_each_app {A} (l1 l2 : list A) (body : A -> M FS unit)
    (w : world FS) :
  for_each (l1 ++ l2) body w
  = match for_each l1 body w with
    | (Ok _, w1) => for_each l2 body w1
    | (Raise e, w1) => (Raise e, w1)
    end.
Proof.
  revert w. induction l1 as [|x l1 IH]; intros w.
  - cbn. destruct (for_each l2 body w) as [[[]|e] w1]; reflexivity.
  - cbn [for_each app]. unfold mbind, M_bind.
    destruct (body x w) as [[[]|e] w1]; [apply IH | reflexivity].
Qed.

(** What one call of [fetch_html_content] does, case by case. *)
Lemma fetch_html_content_run (url : str) (w : world FS) :
  fetch url w
  = let after records :=
      World (fs w) (logs w ++ records) (gets w ++ [url])
        (calls w ++ [call_fetch_html_content url]) in
    let error msg :=
      LogRecord ERROR
        (lit "Error fetching HTML content from " ++ url ++ lit ": " ++ msg)
    in
    match network (gets w) url with
    | inl (RequestException msg) => (Ok None, after [error msg])
    | inl e => (Raise e, after [])
    | inr response =>
        if error_status response
        then (Ok None, after [error (http_error_message response)])
        else (Ok (Some (text response)), after [])
    end.
Proof.
  unfold fetch_html_content, requests_get, raise_for_status, error_status.
  run_world. destruct (network (gets w) url) as [e|response].
  - destruct e; rewrite ?app_nil_r; reflexivity.
  - destruct ((400 <=? status_code response)
              && (status_code response <? 600))%Z; run_world.
    + reflexivity.
    + rewrite app_nil_r. reflexivity.
Qed.

(** What one call of [download_image] does, case by case. *)
Lemma download_image_run (url file_path : str) (w : world FS) :
  download url file_path w
  = let after fs' records :=
      World fs' (logs w ++ records) (gets w ++ [url])
        (calls w ++ [call_download_image url file_path]) in
    let fetch_error msg :=
      LogRecord ERROR
        (lit "Error fetching image from " ++ url ++ lit ": " ++ msg) in
    let save_error msg :=
      LogRecord ERROR
        (lit "Error saving image at " ++ file_path ++ lit ": " ++ msg) in
    match network (gets w) url with
    | inl (RequestException msg) => (Ok tt, after (fs w) [fetch_error msg])
    | inl (OSError msg) => (Ok tt, after (fs w) [save_error msg])
    | inl e => (Raise e, after (fs w) [])
    | inr response =>
        if error_status response
        then (Ok tt,
              after (fs w) [fetch_error (http_error_message response)])
        else if path_rejected file_path
        then (Raise ValueError, after (fs w) [])
        else
          match write_file file_path (content response) (fs w) with
          | (Some msg, fs') => (Ok tt, after fs' [save_error msg])
          | (None, fs') =>
              (Ok tt,
               after fs'
                 [LogRecord INFO (lit "Image saved at " ++ file_path)])
          end
    end.
Proof.
  unfold download_image, requests_get, raise_for_status, error_status,
    open_write.
  run_world. destruct (network (gets w) url) as [e|response].
  - destruct e; rewrite ?app_nil_r; reflexivity.
  - destruct ((400 <=? status_code response)
              && (status_code response <? 600))%Z; run_world.
    + reflexivity.
    + destruct (path_rejected file_path).
      * rewrite app_nil_r. reflexivity.
      * destruct (write_file file_path (content response) (fs w))
          as [[msg|] fs']; reflexivity.
Qed.

(** Whatever its outcome, [download_image] has made one request and
    entered once. *)
Lemma download_image_effects (url file_path : str) (w w' : world FS)
    (r : result unit) :
  download url file_path w = (r, w') ->
  gets w' = gets w ++ [url]
  /\ calls w' = calls w ++ [call_download_image url file_path].
Proof.
  rewrite download_image_run. cbv zeta.
  destruct (network (gets w) url) as [e|response].
  - destruct e; intros [= _ <-]; split; reflexivity.
  - destruct (error_status response); [intros [= _ <-]; split; reflexivity|].
    destruct (path_rejected file_path);
      [intros [= _ <-]; split; reflexivity|].
    destruct (write_file file_path (content response) (fs w))
      as [[msg|] fs']; intros [= _ <-]; split; reflexivity.
Qed.

(** When [requests.get] raises nothing but RequestException and the path
    is one the interpreter accepts, [download_image] returns: it requests
    the URL once, logs one record, and the record is an error exactly
    when the download failed. *)
Lemma download_image_returns (url file_path : str) (w : world FS) :
  raises_only_request_exceptions network ->
  path_rejected file_path = false ->
  exists w' record,
    download url file_path w = (Ok tt, w')
    /\ logs w' = logs w ++ [record]
    /\ gets w' = gets w ++ [url]
    /\ calls w' = calls w ++ [call_download_image url file_path]
    /\ (levelname record = ERROR
        <-> download_fails network url file_path w = true).
Proof.
  intros Hnet Hpath. rewrite download_image_run. unfold download_fails.
  rewrite Hpath. cbv zeta. cbn [negb andb].
  destruct (network (gets w) url) as [e|response] eqn:Houtcome.
  - destruct (Hnet _ _ _ Houtcome) as [msg ->].
    do 2 eexists. repeat split; reflexivity.
  - destruct (error_status response).
    + do 2 eexists. repeat split; reflexivity.
    + destruct (write_file file_path (content response) (fs w))
        as [[msg|] fs']; do 2 eexists; cbn;
        (split; [reflexivity|]); repeat split; cbn; congruence.
Qed.

(** Under the same conditions the loop of [download_images] returns, and
    it has requested each name once, in order. *)
Lemma download_loop_returns (url_base : pyval) (folder_path : str)
    (names : list str) (w : world FS) :
  raises_only_request_exceptions network ->
  forallb (fun name =>
             negb (path_rejected (posixpath_join folder_path [name])))
    names = true ->
  exists w',
    download_loop url_base folder_path names w = (Ok tt, w')
    /\ gets w'
       = gets w ++ List.map (fun name => format repr url_base
                                           ++ [slash] ++ name) names
    /\ calls w'
       = calls w
           ++ List.map (fun name =>
                          call_download_image
                            (format repr url_base ++ [slash] ++ name)
                            (posixpath_join folder_path [name])) names
    /\ length (logs w') = (length (logs w) + length names)%nat.
Proof.
  intros Hnet. revert w. induction names as [|name names IH]; intros w Hp.
  - exists w. cbn. rewrite !app_nil_r, Nat.add_0_r. repeat split.
  - cbn [forallb] in Hp. apply andb_true_iff in Hp as [Hname Hp].
    apply negb_true_iff in Hname.
    cbn [for_each List.map length]. unfold mbind, M_bind.
    unfold download_one at 1.
    destruct (download_image_returns
                (format repr url_base ++ [slash] ++ name)
                (posixpath_join folder_path [name]) w Hnet Hname)
      as (w1 & record & Hrun & Hlogs & Hgets & Hcalls & _).
    destruct (IH w1 Hp) as (w' & Hloop & Hgets' & Hcalls' & Hlogs').
    exists w'. rewrite Hrun, Hloop, Hgets', Hcalls', Hlogs'.
    rewrite Hgets, Hcalls, Hlogs, length_app. cbn [length].
    rewrite <- !app_assoc. repeat split. lia.
Qed.

(** However the loop ends, the names it has requested are a prefix of the
    list, each requested once and in order; when it returns, the prefix
    is the whole list. *)
Lemma download_loop_attempts (url_base : pyval) (folder_path : str)
    (names : list str) (w w' : world FS) (r : result unit) :
  download_loop url_base folder_path names w = (r, w') ->
  exists tried rest,
    names = tried ++ rest
    /\ gets w'
       = gets w ++ List.map (fun name => format repr url_base
                                           ++ [slash] ++ name) tried
    /\ (r = Ok tt -> rest = []).
Proof.
  revert w. induction names as [|name names IH]; intros w.
  - intros [= <- <-]. exists [], []. cbn. rewrite app_nil_r. repeat split.
  - cbn [for_each]. unfold mbind, M_bind. unfold download_one at 1.
    destruct (download_image network http_error_message
                (format repr url_base ++ [slash] ++ name)
                (posixpath_join folder_path [name]) w)
      as [r1 w1] eqn:Hone.
    destruct (download_image_effects _ _ _ _ _ Hone) as [Hgets _].
    destruct r1 as [[]|e].
    + intros Hrest. destruct (IH w1 Hrest) as (tried & rest & -> & Hg & Hr).
      exists (name :: tried), rest. cbn [List.map app].
      rewrite Hg, Hgets, <- app_assoc. repeat split. exact Hr.
    + intros [= <- <-]. exists [name], names. cbn [List.map app].
      repeat split; [exact Hgets | discriminate].
Qed.

(** C6.  After a call of [create_folder_if_not_exists] that returned, a
    second call with the same path returns too, the path exists, and
    neither the file system nor the log has changed. *)
Theorem create_folder_if_not_exists_idempotent (folder_path : str)
    (w w1 : world FS) :
  create_folder_if_not_exists folder_path w = (Ok tt, w1) ->
  create_folder_if_not_exists folder_path w1
  = (Ok tt,
     World (fs w1) (logs w1) (gets w1)
       (calls w1 ++ [call_create_folder_if_not_exists folder_path]))
  /\ path_exists folder_path (fs w1) = true.
Proof.
  unfold create_folder_if_not_exists, os_path_exists, os_makedirs.
  run_world. intros Hfirst.
  assert (Hex : path_rejected folder_path = false
                /\ path_exists folder_path (fs w1) = true).
  { destruct (path_rejected folder_path) eqn:Hrej;
      destruct (path_exists folder_path (fs w)) eqn:Hw;
      cbn [negb andb fs logs gets calls] in Hfirst.
    1,2: destruct (makedirs folder_path (fs w)) as [[msg|] fs'];
      cbn [fs logs gets calls] in Hfirst; discriminate.
    - injection Hfirst as Hw1. subst w1. split; [reflexivity | exact Hw].
    - destruct (makedirs folder_path (fs w)) as [[msg|] fs'] eqn:Hmk;
        cbn [fs logs gets calls] in Hfirst; [discriminate|].
      injection Hfirst as Hw1. subst w1. cbn [fs].
      split; [reflexivity | exact (makedirs_exists _ _ _ Hmk)]. }
  destruct Hex as [Hrej Hex]. rewrite Hrej, Hex. cbn [negb andb].
  split; reflexivity.
Qed.

(** A parameter dictionary without [folder_name] makes [os.path.join]
    raise TypeError before the parameters are checked: nothing is logged,
    nothing is requested, nothing is written. *)
Lemma download_images_without_folder_name (params : gmap string pyval)
    (w : world FS) :
  params !! "folder_name" = None ->
  download_images network http_error_message repr params w
  = (Raise TypeError,
     World (fs w) (logs w) (gets w)
       (calls w ++ [call_download_images params])).
Proof.
  intros Hmissing.
  unfold download_images, os_path_join, dict_get at 3.
  rewrite Hmissing. run_world.
  destruct (fspath (dict_get params "base_folder")) as [a|e] eqn:Hbase.
  - reflexivity.
  - destruct (dict_get params "base_folder"); cbn in Hbase;
      try discriminate; injection Hbase as <-; reflexivity.
Qed.

(** [main], once the timestamp has a first column, in terms of the
    stages it runs. *)
Lemma main_run (image_types_line date_time date : str) (rest : list str)
    (w : world FS) :
  split_ws date_time = date :: rest ->
  main soup_find_pre_text network http_error_message repr
    image_types_line date_time w
  = match fetch (listing_url date) w with
    | (Ok None, w1) => (Ok tt, w1)
    | (Ok (Some html), w1) =>
        if str_is_empty html then (Ok tt, w1)
        else
          match extract_image_names soup_find_pre_text html
                  (split_ws image_types_line) date_time with
          | Raise e => (Raise e, w1)
          | Ok [] => logging_info (lit "No images found") w1
          | Ok (name :: names) =>
              match rest with
              | [] => (Raise IndexError, w1)
              | time :: _ =>
                  match download_images network http_error_message repr
                          (params_download_images (listing_url date)
                             (name :: names) date
                             (replace colon dash time)) w1 with
                  | (Ok _, w2) =>
                      logging_info (lit "Execution completed") w2
                  | (Raise e, w2) => (Raise e, w2)
                  end
              end
          end
    | (Raise e, w1) => (Raise e, w1)
    end.
Proof.
  intros Hsplit. unfold main, listing_url. rewrite Hsplit.
  unfold mbind, M_bind, mret, M_ret, lift, getitem. cbn [nth_error].
  destruct (fetch _ w) as [[[html|]|e] w1]; try reflexivity.
  destruct (str_is_empty html); [reflexivity|].
  destruct (extract_image_names soup_find_pre_text html
              (split_ws image_types_line) date_time)
    as [[|name names]|e]; try reflexivity.
  destruct rest as [|time rest]; reflexivity.
Qed.


Lemma params_download_images_get (url_base : str) (image_names : list str)
    (folder_name subfolder_name : str) :
  let params :=
    params_download_images url_base image_names folder_name subfolder_name
  in
  dict_get params "url_base" = VStr url_base
  /\ dict_get_default params "image_names" (VList []) = VList image_names
  /\ dict_get params "base_folder" = VStr BASE_IMAGE_DIR
  /\ dict_get params "folder_name" = VStr folder_name
  /\ dict_get params "subfolder_name" = VStr subfolder_name.
Proof.
  unfold params_download_images, dict_get, dict_get_default.
  repeat split; simplify_map_eq; reflexivity.
Qed.

(** [download_images] on the dictionary of [main]: the parameters pass
    the check, the folder is created and the loop runs. *)
Lemma download_images_run (url_base : str) (name : str) (names : list str)
    (folder_name subfolder_name : str) (w : world FS) :
  let params :=
    params_download_images url_base (name :: names) folder_name
      subfolder_name in
  let folder_path :=
    posixpath_join BASE_IMAGE_DIR [folder_name; subfolder_name] in
  str_is_empty url_base = false ->
  str_is_empty folder_path = false ->
  download_images network http_error_message repr params w
  = match create_folder_if_not_exists folder_path
            (World (fs w) (logs w) (gets w)
               (calls w ++ [call_download_images params])) with
    | (Ok _, w2) => download_loop (VStr url_base) folder_path
                      (name :: names) w2
    | (Raise e, w2) => (Raise e, w2)
    end.
Proof.
  intros params folder_path Hurl Hfolder. unfold download_images.
  subst params folder_path.
  destruct (params_download_images_get url_base (name :: names)
              folder_name subfolder_name)
    as (-> & -> & -> & -> & ->).
  change (os_path_join (VStr BASE_IMAGE_DIR)
            [VStr folder_name; VStr subfolder_name])
    with (Ok (posixpath_join BASE_IMAGE_DIR [folder_name; subfolder_name])).
  run_world.
  cbn [forallb truthy]. rewrite Hurl, Hfolder. cbn [negb andb iter].
  destruct (create_folder_if_not_exists _ _) as [[[]|e] w2]; reflexivity.
Qed.

End Stages.

(** ** The model run on the in-memory environment *)

(** C4.  On a dictionary that lacks [folder_name], [download_images]
    does not log and return: [os.path.join] raises TypeError on the
    missing entry before the parameters are checked.  Nothing is logged,
    requested or written. *)
Theorem download_images_missing_folder_name_raises :
  params_without_folder_name !! "folder_name" = None
  /\ download_images (constant_server listing_without_match)
       plain_message plain_repr params_without_folder_name empty_world
     = (Raise TypeError,
        World (MemFs [] []) [] []
          [call_download_images params_without_folder_name]).
Proof.
  split; [reflexivity|].
  apply (download_images_without_folder_name
           (constant_server listing_without_match) plain_message plain_repr
           params_without_folder_name empty_world).
  reflexivity.
Qed.

(** C3.  [fetch_html_content] does let an exception escape: for a URL
    whose host has a label of 64 characters, [requests.get] raises
    urllib3's LocationParseError, which is a ValueError and no
    RequestException; the handler does not match, nothing is logged and
    the caller gets the exception instead of [None]. *)
Theorem fetch_html_content_lets_value_error_escape :
  fetch_html_content refusing_client plain_message long_label_url
    empty_world
  = (Raise ValueError,
     World (MemFs [] []) [] [long_label_url]
       [call_fetch_html_content long_label_url]).
Proof. vm_compute. reflexivity. Qed.

(** C7.  The failure of one download can abort the loop: for a name that
    holds U+0000 the GET succeeds and [open] raises ValueError, which
    neither handler of [download_image] catches; the loop ends there,
    nothing is logged and the next name is never requested. *)
Theorem download_loop_aborts_on_rejected_name :
  for_each [name_with_nul; plain_name]
    (download_one (constant_server image_response) plain_message
       plain_repr (VStr example_url) example_folder) empty_world
  = (Raise ValueError,
     World (MemFs [] []) []
       [example_url ++ [slash] ++ name_with_nul]
       [call_download_image (example_url ++ [slash] ++ name_with_nul)
          (example_folder ++ [slash] ++ name_with_nul)]).
Proof. vm_compute. reflexivity. Qed.

(** C6, the witness: the folder of the prompt's timestamp, created in
    the empty world and asked for again. *)
Lemma create_folder_if_not_exists_idempotent_witness :
  create_folder_if_not_exists example_folder world_with_folder
  = (Ok tt,
     World (fs world_with_folder) (logs world_with_folder)
       (gets world_with_folder)
       (calls world_with_folder
          ++ [call_create_folder_if_not_exists example_folder]))
  /\ path_exists example_folder (fs world_with_folder) = true.
Proof.
  apply (create_folder_if_not_exists_idempotent example_folder
           empty_world world_with_folder).
  vm_compute. reflexivity.
Defined.


(** C9.  The destination is not always
    [images/imagesSDO/<YYYY-MM-DD>/<HH-MM>/<filename>]: a listing line
    whose first column begins with a slash is selected, and
    [os.path.join] drops the folder, so that the file is written at
    [/x_HMIIC.jpg] and not under [images/imagesSDO/2024-08-02/01-10]. *)
Theorem absolute_name_escapes_folder :
  timestamp_form example_date_time = true
  /\ extract_image_names plain_find_pre_text
       (text listing_with_absolute_name) [lit "HMIIC"; lit "HMIIF"]
       example_date_time
     = Ok [lit "/x_HMIIC.jpg"]
  /\ fst run_with_absolute_name = Ok tt
  /\ mem_files (fs (snd run_with_absolute_name))
     = [(lit "/x_HMIIC.jpg", content listing_with_absolute_name)]
  /\ lit "/x_HMIIC.jpg"
     <> destination example_date_time (lit "/x_HMIIC.jpg").
Proof.
  repeat split; try (vm_compute; reflexivity).
  vm_compute. discriminate.
Qed.

(** The loop with the network down: both names are requested, each
    failure is logged, and the loop returns. *)
Example download_loop_network_down :
  for_each [lit "a_HMIIC.jpg"; lit "b_HMIIC.jpg"]
    (download_one unreachable plain_message plain_repr
       (VStr example_url) example_folder) empty_world
  = (Ok tt,
     World (MemFs [] [])
       [LogRecord ERROR
          (lit "Error fetching image from " ++ example_url
             ++ lit "/a_HMIIC.jpg: connection refused");
        LogRecord ERROR
          (lit "Error fetching image from " ++ example_url
             ++ lit "/b_HMIIC.jpg: connection refused")]
       [example_url ++ lit "/a_HMIIC.jpg";
        example_url ++ lit "/b_HMIIC.jpg"]
       [call_download_image (example_url ++ lit "/a_HMIIC.jpg")
          (example_folder ++ lit "/a_HMIIC.jpg");
        call_download_image (example_url ++ lit "/b_HMIIC.jpg")
          (example_folder ++ lit "/b_HMIIC.jpg")]).
Proof. vm_compute. reflexivity. Qed.

(* ===================================================================== *)
(** * Part III.  Further properties                                       *)
(* ===================================================================== *)

(** ** Pieces of a split *)

Lemma has_nonspace_false_split_ws (s : str) :
  has_nonspace s = false -> split_ws s = [].
Proof.
  unfold split_ws, has_nonspace.
  induction s as [|c s IH]; [reflexivity|].
  cbn [existsb split_by]. intros Hs.
  apply orb_false_iff in Hs as [Hc Hs]. apply negb_false_iff in Hc.
  rewrite Hc. cbn [List.filter str_is_empty negb]. exact (IH Hs).
Qed.

Lemma split_ws_nil_iff (s : str) :
  split_ws s = [] <-> has_nonspace s = false.
Proof.
  split; [|apply has_nonspace_false_split_ws].
  intros Hs. destruct (has_nonspace s) eqn:Hn; [|reflexivity].
  destruct (split_ws_not_nil s Hn Hs).
Qed.

(** No piece of a split contains a separator, and every code point of a
    piece comes from the string. *)
Lemma split_by_pieces (p : char -> bool) (s w : str) :
  In w (split_by p s) ->
  forallb (fun c => negb (p c)) w = true /\ (forall c, In c w -> In c s).
Proof.
  revert w. induction s as [|c s IH]; intros w Hw.
  - cbn in Hw. destruct Hw as [<-|[]]. split; [reflexivity|]. intros c [].
  - cbn [split_by] in Hw. destruct (p c) eqn:Hc.
    + destruct Hw as [<-|Hw]; [split; [reflexivity | intros x []]|].
      destruct (IH w Hw) as [Hp Hin]. split; [exact Hp|].
      intros x Hx. right. exact (Hin x Hx).
    + destruct (split_by p s) as [|w0 ws] eqn:Hsplit.
      * destruct Hw as [<-|[]]. cbn. rewrite Hc. split; [reflexivity|].
        intros x [<-|[]]. left. reflexivity.
      * destruct Hw as [<-|Hw].
        -- destruct (IH w0 (or_introl eq_refl)) as [Hp Hin].
           split; [cbn; rewrite Hc, Hp; reflexivity|].
           intros x [<-|Hx]; [left; reflexivity | right; exact (Hin x Hx)].
        -- destruct (IH w (or_intror Hw)) as [Hp Hin].
           split; [exact Hp|]. intros x Hx. right. exact (Hin x Hx).
Qed.

(** A column of [split()] is not empty and has no whitespace. *)
Lemma split_ws_pieces (s w : str) :
  In w (split_ws s) -> w <> [] /\ no_whitespace w = true.
Proof.
  unfold split_ws. intros Hw. apply filter_In in Hw as [Hw Hne].
  split.
  - destruct w; [discriminate | congruence].
  - exact (proj1 (split_by_pieces _ _ _ Hw)).
Qed.

Lemma no_whitespace_has_nonspace (w : str) :
  w <> [] -> no_whitespace w = true -> has_nonspace w = true.
Proof.
  destruct w as [|c w]; [congruence|]. intros _ Hw.
  cbn in Hw |- *. apply andb_true_iff in Hw as [Hc _].
  rewrite Hc. reflexivity.
Qed.

Lemma has_nonspace_incl (a b : str) :
  (forall c, In c a -> In c b) ->
  has_nonspace a = true -> has_nonspace b = true.
Proof.
  unfold has_nonspace. intros Hincl Ha.
  apply existsb_exists in Ha as (c & Hc & Hsp).
  apply existsb_exists. exists c. split; [exact (Hincl c Hc) | exact Hsp].
Qed.

Lemma hd_In {A} (d : A) (l : list A) : l <> [] -> In (hd d l) l.
Proof. destruct l; [congruence | left; reflexivity]. Qed.

Lemma last_In {A} (d : A) (l : list A) : l <> [] -> In (List.last l d) l.
Proof.
  destruct l as [|x l] using rev_ind; [congruence|]. intros _.
  rewrite last_last. apply in_or_app. right. left. reflexivity.
Qed.

(** The code points of the type token of a line are code points of the
    line. *)
Lemma type_token_incl (line : str) (c : char) :
  In c (type_token line) -> In c line.
Proof.
  unfold type_token. intros Hc.
  pose proof (hd_In (A := str) [] _ (split_not_nil dot line)) as Hstem.
  pose proof (last_In (A := str) []  _
                (split_not_nil underscore (hd [] (split dot line))))
    as Htoken.
  apply (proj2 (split_by_pieces _ _ _ Hstem)).
  exact (proj2 (split_by_pieces _ _ _ Htoken) c Hc).
Qed.

(** ** More about the comprehension *)

(** X1.  The comprehension raises IndexError exactly when some line that
    passes both filters is made of whitespace only (or is empty);
    otherwise it returns. *)
Theorem image_names_raises_iff_blank_line_selected
    (pre_text type_images : list str) (date_time : str) :
  image_names pre_text type_images date_time = Raise IndexError
  <-> exists line,
        In line pre_text
        /\ line_matches type_images date_time line = true
        /\ has_nonspace line = false.
Proof.
  induction pre_text as [|line rest IH].
  - split; [discriminate | intros (l & [] & _)].
  - cbn [image_names]. rewrite line_selected_matches.
    unfold mbind at 1. cbn [result_bind].
    destruct (line_matches type_images date_time line) eqn:Hm.
    + destruct (has_nonspace line) eqn:Hn.
      * rewrite (getitem_0_hd (A := str) [] _ (split_ws_not_nil _ Hn)).
        unfold mbind at 1. cbn [result_bind].
        destruct (image_names rest type_images date_time) as [names|e]
          eqn:Hrest; unfold mbind, mret; cbn [result_bind result_ret].
        -- split; [discriminate|].
           intros (l & [<-|Hl] & Hlm & Hln); [congruence|].
           assert (Hno : Ok names = Raise IndexError)
             by (apply IH; exists l; auto).
           discriminate Hno.
        -- split.
           ++ intros He. destruct (proj1 IH He) as (l & Hl & Hrest').
              exists l. split; [right; exact Hl | exact Hrest'].
           ++ intros _. rewrite (image_names_raises _ _ _ _ Hrest).
              reflexivity.
      * rewrite (has_nonspace_false_split_ws _ Hn).
        split; [|reflexivity]. intros _. exists line.
        split; [left; reflexivity | split; assumption].
    + rewrite IH. split.
      * intros (l & Hl & Hrest). exists l. split; [right; exact Hl|].
        exact Hrest.
      * intros (l & [<-|Hl] & Hlm & Hln); [congruence|]. exists l. auto.
Qed.

(** X2.  With the type tokens [main] passes, the columns of the line the
    user typed, the comprehension returns for every list of lines and
    every timestamp: a selected line holds a type token, which has no
    whitespace. *)
Theorem image_names_returns_for_typed_tokens
    (image_types_line : str) (pre_text : list str) (date_time : str) :
  image_names pre_text (split_ws image_types_line) date_time
  = Ok (List.map first_column
          (List.filter
             (line_matches (split_ws image_types_line) date_time)
             pre_text)).
Proof.
  apply image_names_spec. apply Forall_forall. intros line _ Hm.
  apply andb_true_iff in Hm as [_ Htoken].
  apply existsb_exists in Htoken as (token & Hin & Heq).
  apply str_eqb_eq in Heq. subst token.
  apply split_ws_not_nil.
  destruct (split_ws_pieces _ _ Hin) as [Hne Hnw].
  apply (has_nonspace_incl (type_token line)).
  - apply type_token_incl.
  - exact (no_whitespace_has_nonspace _ Hne Hnw).
Qed.

(** X3.  Every name the comprehension returns is the first column of one
    of the lines that pass both filters; it is not empty and has no
    whitespace. *)
Theorem image_names_are_clean_columns
    (pre_text type_images : list str) (date_time : str)
    (names : list str) :
  image_names pre_text type_images date_time = Ok names ->
  Forall (fun name =>
            name <> [] /\ no_whitespace name = true
            /\ exists line,
                 In line pre_text
                 /\ line_matches type_images date_time line = true
                 /\ getitem (split_ws line) 0 = Ok name)
    names.
Proof.
  revert names. induction pre_text as [|line rest IH]; intros names.
  - intros [= <-]. constructor.
  - cbn [image_names]. rewrite line_selected_matches.
    unfold mbind at 1. cbn [result_bind].
    destruct (line_matches type_images date_time line) eqn:Hm.
    + destruct (getitem (split_ws line) 0) as [name|e] eqn:Hname;
        unfold mbind at 1; cbn [result_bind]; [|discriminate].
      destruct (image_names rest type_images date_time) as [names'|e];
        unfold mbind, mret; cbn [result_bind result_ret]; [|discriminate].
      intros [= <-]. constructor.
      * assert (Hin : In name (split_ws line)).
        { unfold getitem in Hname.
          destruct (split_ws line) as [|x l]; [discriminate|].
          cbn in Hname. injection Hname as ->. left. reflexivity. }
        destruct (split_ws_pieces _ _ Hin) as [Hne Hnw].
        split; [exact Hne|]. split; [exact Hnw|].
        exists line. split; [left; reflexivity|]. split; assumption.
      * eapply Forall_impl; [exact (IH names' eq_refl)|].
        intros name' (Hne & Hnw & l & Hl & Hrest).
        split; [exact Hne|]. split; [exact Hnw|].
        exists l. split; [right; exact Hl | exact Hrest].
    + intros Hrest. eapply Forall_impl; [exact (IH names Hrest)|].
      intros name' (Hne & Hnw & l & Hl & Hrest').
      split; [exact Hne|]. split; [exact Hnw|].
      exists l. split; [right; exact Hl | exact Hrest'].
Qed.

(** X3, the witness: the listing of three lines. *)
Lemma image_names_are_clean_columns_witness :
  Forall (fun name =>
            name <> [] /\ no_whitespace name = true
            /\ exists line,
                 In line (split newline pre_of_three)
                 /\ line_matches [lit "HMIIC"] example_date_time line = true
                 /\ getitem (split_ws line) 0 = Ok name)
    [lit "a_HMIIC.jpg"; lit "c_HMIIC.jpg"].
Proof.
  apply (image_names_are_clean_columns (split newline pre_of_three)
           [lit "HMIIC"] example_date_time).
  vm_compute. reflexivity.
Defined.

(** ** Paths the interpreter accepts *)

Lemma digit_encodable (c : char) :
  is_digit c = true -> unencodable c = false.
Proof.
  unfold is_digit, unencodable. intros Hd.
  apply andb_true_iff in Hd as [H1 H2].
  apply N.leb_le in H1. apply N.leb_le in H2.
  repeat match goal with
         | |- context [?a <=? ?b] =>
             destruct (N.leb_spec a b); [try lia | try lia]
         | |- context [?a =? ?b] =>
             destruct (N.eqb_spec a b); [try lia | try lia]
         end;
    try reflexivity.
Qed.

Lemma path_rejected_app (a b : str) :
  path_rejected (a ++ b) = path_rejected a || path_rejected b.
Proof. apply existsb_app. Qed.

(** The folder of a timestamp of the form holds letters, digits, dashes
    and slashes only. *)
Lemma destination_folder_accepted (date_time : str) :
  timestamp_form date_time = true ->
  path_rejected (destination_folder date_time) = false.
Proof.
  intros Hf. timestamp_cases Hf.
  unfold destination_folder, date_part, time_part, replace.
  cbn [firstn skipn List.map]. digit_facts.
  rewrite !path_rejected_app.
  change (path_rejected BASE_IMAGE_DIR) with false.
  unfold path_rejected. cbn [existsb orb].
  repeat match goal with
         | Hd : is_digit ?c = true |- _ =>
             rewrite ?(digit_encodable c Hd); revert Hd
         end.
  intros. reflexivity.
Qed.

Lemma destination_path_accepted (date_time name : str) :
  timestamp_form date_time = true ->
  path_rejected name = false ->
  path_rejected (posixpath_join (destination_folder date_time) [name])
  = false.
Proof.
  intros Hf Hname. rewrite (timestamp_form_file_path _ _ Hf).
  destruct (startswith [slash] name); [exact Hname|].
  unfold destination. rewrite !path_rejected_app, Hname.
  rewrite (destination_folder_accepted _ Hf). reflexivity.
Qed.

(** ** More about the stages *)

Section MoreStages.

Context {FS : Type} `{FileSystem FS}.
Variable soup_find_pre_text : str -> option str.
Variable network : list str -> str -> exn + Response.
Variable http_error_message : Response -> str.
Variable repr : pyval -> str.

Local Abbreviation run_main :=
  (main soup_find_pre_text network http_error_message repr).
Local Abbreviation run_download_images :=
  (download_images network http_error_message repr).
Local Abbreviation run_loop url_base folder_path names :=
  (for_each names
     (download_one network http_error_message repr url_base folder_path)).

Ltac step_world :=
  unfold mbind, M_bind, mret, M_ret, try_except, enter, lift,
    logging_error, logging_info;
  cbn [fs logs gets calls].

(** What one call of [create_folder_if_not_exists] does, case by case. *)
Lemma create_folder_if_not_exists_run (folder_path : str) (w : world FS) :
  create_folder_if_not_exists folder_path w
  = let entered :=
      calls w ++ [call_create_folder_if_not_exists folder_path] in
    if negb (path_rejected folder_path) && path_exists folder_path (fs w)
    then (Ok tt, World (fs w) (logs w) (gets w) entered)
    else
      match makedirs folder_path (fs w) with
      | (Some msg, fs') =>
          (Raise (OSError msg), World fs' (logs w) (gets w) entered)
      | (None, fs') =>
          if path_rejected folder_path
          then (Raise ValueError, World fs' (logs w) (gets w) entered)
          else
            (Ok tt,
             World fs'
               (logs w ++ [LogRecord INFO
                             (lit "Created folder: " ++ folder_path)])
               (gets w) entered)
      end.
Proof.
  unfold create_folder_if_not_exists, os_path_exists, os_makedirs.
  step_world.
  destruct (negb (path_rejected folder_path)
            && path_exists folder_path (fs w));
    cbn [negb fs logs gets calls]; [reflexivity|].
  destruct (makedirs folder_path (fs w)) as [[msg|] fs'];
    [reflexivity|].
  destruct (path_rejected folder_path); reflexivity.
Qed.

(** X4.  A timestamp without any non-whitespace character makes [main]
    raise IndexError at [date_time.split()[0]], before anything is
    requested, logged or written. *)
Theorem main_blank_timestamp_raises (image_types_line date_time : str)
    (w : world FS) :
  has_nonspace date_time = false ->
  run_main image_types_line date_time w = (Raise IndexError, w).
Proof.
  intros Hblank. unfold main.
  rewrite (has_nonspace_false_split_ws _ Hblank). reflexivity.
Qed.

(** X5.  A timestamp of one column (a date without a time) never gets
    [main] as far as the downloader: the listing is requested, nothing is
    written, and when the listing does yield names [main] raises
    IndexError at [date_time.split()[1]]. *)
Theorem main_date_only_never_downloads
    (image_types_line date_time date : str) (w w' : world FS)
    (r : result unit) :
  split_ws date_time = [date] ->
  run_main image_types_line date_time w = (r, w') ->
  calls w' = calls w ++ [call_fetch_html_content (listing_url date)]
  /\ gets w' = gets w ++ [listing_url date]
  /\ fs w' = fs w
  /\ (forall response name names,
         network (gets w) (listing_url date) = inr response ->
         error_status response = false ->
         text response <> [] ->
         extract_image_names soup_find_pre_text (text response)
           (split_ws image_types_line) date_time = Ok (name :: names) ->
         r = Raise IndexError).
Proof.
  intros Hsplit. rewrite (main_run _ _ _ _ _ _ _ _ _ Hsplit).
  rewrite fetch_html_content_run.
  destruct (network (gets w) (listing_url date)) as [e|response].
  { destruct e; intros [= _ <-]; repeat split; discriminate. }
  destruct (error_status response) eqn:Hstatus.
  { intros [= _ <-]. repeat split. intros r0 n ns [= <-]. congruence. }
  destruct (text response) as [|c html] eqn:Htext.
  { intros [= _ <-]. repeat split. intros r0 n ns [= <-] _. congruence. }
  cbn [str_is_empty].
  destruct (extract_image_names soup_find_pre_text (c :: html)
              (split_ws image_types_line) date_time)
    as [[|name names]|e] eqn:Hnames.
  - unfold logging_info. intros [= _ <-]. repeat split.
    intros r0 n ns [= <-] _ _. rewrite Htext, Hnames. discriminate.
  - intros [= <- <-]. repeat split.
  - intros [= _ <-]. repeat split.
    intros r0 n ns [= <-] _ _. rewrite Htext, Hnames. discriminate.
Qed.

(** X6.  When the listing comes back with an empty body, [main] returns
    without logging anything and without running the extractor. *)
Theorem main_empty_body_returns_silently
    (image_types_line date_time date : str) (rest : list str)
    (response : Response) (w : world FS) :
  split_ws date_time = date :: rest ->
  network (gets w) (listing_url date) = inr response ->
  error_status response = false ->
  text response = [] ->
  run_main image_types_line date_time w
  = (Ok tt,
     World (fs w) (logs w) (gets w ++ [listing_url date])
       (calls w ++ [call_fetch_html_content (listing_url date)])).
Proof.
  intros Hsplit Hnet Hstatus Htext.
  rewrite (main_run _ _ _ _ _ _ _ _ _ Hsplit), fetch_html_content_run.
  rewrite Hnet, Hstatus, Htext. cbn [str_is_empty].
  rewrite app_nil_r. reflexivity.
Qed.

(** X7.  When [base_folder], [folder_name] or [subfolder_name] is
    missing from the dictionary, or is not a string, [download_images]
    raises TypeError from [os.path.join]: nothing is logged, requested or
    written. *)
Theorem download_images_path_entry_not_str_raises
    (params : gmap string pyval) (w : world FS) :
  forallb is_str
    [dict_get params "base_folder"; dict_get params "folder_name";
     dict_get params "subfolder_name"] = false ->
  run_download_images params w
  = (Raise TypeError,
     World (fs w) (logs w) (gets w)
       (calls w ++ [call_download_images params])).
Proof.
  intros Hpaths. unfold download_images, os_path_join.
  assert (Hjoin :
            (a' ← fspath (dict_get params "base_folder");
             p' ← mapM fspath [dict_get params "folder_name";
                               dict_get params "subfolder_name"];
             mret (posixpath_join a' p')) = Raise TypeError).
  { cbn [forallb] in Hpaths.
    destruct (dict_get params "base_folder");
      destruct (dict_get params "folder_name");
      destruct (dict_get params "subfolder_name");
      try discriminate Hpaths; reflexivity. }
  rewrite Hjoin. reflexivity.
Qed.

(** X8.  When the three path entries are strings and [url_base] or
    [image_names] is missing or empty, [download_images] logs one error
    and returns: no folder is created and nothing is requested. *)
Theorem download_images_rejects_missing_parameters
    (params : gmap string pyval) (base folder sub : str) (w : world FS) :
  dict_get params "base_folder" = VStr base ->
  dict_get params "folder_name" = VStr folder ->
  dict_get params "subfolder_name" = VStr sub ->
  truthy (dict_get params "url_base")
  && truthy (dict_get_default params "image_names" (VList [])) = false ->
  run_download_images params w
  = (Ok tt,
     World (fs w)
       (logs w ++ [LogRecord ERROR
                     (lit "Error: Missing required parameters.")])
       (gets w)
       (calls w ++ [call_download_images params])).
Proof.
  intros Hbase Hfolder Hsub Hfalsy. unfold download_images.
  rewrite Hbase, Hfolder, Hsub.
  change (os_path_join (VStr base) [VStr folder; VStr sub])
    with (Ok (posixpath_join base [folder; sub])).
  step_world. cbn [forallb].
  rewrite andb_assoc, Hfalsy. reflexivity.
Qed.

(** X9.  When the parameters are complete and the folder can not be
    created, the OSError of [os.makedirs] escapes [download_images]: no
    image is requested. *)
Theorem download_images_folder_failure_aborts
    (url_base name : str) (names : list str)
    (folder_name subfolder_name msg : str) (fs' : FS) (w : world FS) :
  let params :=
    params_download_images url_base (name :: names) folder_name
      subfolder_name in
  let folder_path :=
    posixpath_join BASE_IMAGE_DIR [folder_name; subfolder_name] in
  str_is_empty url_base = false ->
  str_is_empty folder_path = false ->
  path_exists folder_path (fs w) = false ->
  makedirs folder_path (fs w) = (Some msg, fs') ->
  run_download_images params w
  = (Raise (OSError msg),
     World fs' (logs w) (gets w)
       (calls w ++ [call_download_images params;
                    call_create_folder_if_not_exists folder_path])).
Proof.
  intros params folder_path Hurl Hfolder Hexists Hmakedirs.
  subst params folder_path.
  rewrite (download_images_run _ _ _ _ _ _ _ _ _ Hurl Hfolder).
  rewrite create_folder_if_not_exists_run. cbn [fs logs gets calls].
  rewrite Hexists, andb_false_r, Hmakedirs, <- app_assoc. reflexivity.
Qed.

(** A download whose GET fails writes nothing: [download_image] returns
    with the file system as it was, one request made and one error
    logged. *)
Lemma download_image_failed_get_writes_nothing
    (url file_path : str) (w : world FS) :
  get_fails network url w = true ->
  exists msg,
    download_image network http_error_message url file_path w
    = (Ok tt,
       World (fs w)
         (logs w ++ [LogRecord ERROR
                       (lit "Error fetching image from " ++ url
                          ++ lit ": " ++ msg)])
         (gets w ++ [url])
         (calls w ++ [call_download_image url file_path])).
Proof.
  unfold get_fails. rewrite download_image_run.
  destruct (network (gets w) url) as [e|response].
  - destruct e; try discriminate. intros _. eexists. reflexivity.
  - intros ->. eexists. reflexivity.
Qed.

(** X10.  When every GET fails, the download loop still runs through all
    the names and leaves the file system untouched: it logs one error
    per name and nothing else. *)
Theorem download_loop_without_network_writes_nothing
    (url_base : pyval) (folder_path : str) (names : list str)
    (w : world FS) :
  network_always_fails network ->
  exists records,
    run_loop url_base folder_path names w
    = (Ok tt,
       World (fs w) (logs w ++ records)
         (gets w ++ List.map (fun name => format repr url_base
                                            ++ [slash] ++ name) names)
         (calls w
            ++ List.map (fun name =>
                           call_download_image
                             (format repr url_base ++ [slash] ++ name)
                             (posixpath_join folder_path [name])) names))
    /\ length records = length names
    /\ forallb is_error records = true.
Proof.
  intros Hdown. revert w. induction names as [|name names IH]; intros w.
  - exists []. cbn. rewrite !app_nil_r. destruct w; repeat split.
  - cbn [for_each List.map length]. unfold mbind, M_bind.
    unfold download_one at 1.
    destruct (download_image_failed_get_writes_nothing
                (format repr url_base ++ [slash] ++ name)
                (posixpath_join folder_path [name]) w) as [msg Hone].
    { unfold get_fails. specialize (Hdown (gets w)
        (format repr url_base ++ [slash] ++ name)).
      destruct (network _ _) as [e|response];
        [destruct e; (reflexivity || destruct Hdown) | exact Hdown]. }
    rewrite Hone.
    match goal with
    | |- context [for_each names _ ?w1] =>
        destruct (IH w1) as (records & Hloop & Hlen & Herr)
    end.
    rewrite Hloop. cbn [fs logs gets calls].
    eexists (_ :: records). rewrite <- !app_assoc. cbn [app].
    split; [reflexivity|]. split; [cbn; congruence|].
    cbn [forallb]. rewrite Herr. reflexivity.
Qed.

Lemma listing_url_of_timestamp (date_time : str) :
  timestamp_form date_time = true ->
  listing_url (date_part date_time) = browse_url date_time.
Proof.
  intros Hf. timestamp_cases Hf.
  unfold listing_url, browse_url, date_part, replace.
  cbn [firstn skipn List.map]. digit_facts. reflexivity.
Qed.

(** X11.  For a timestamp of the form [YYYY-MM-DD HH:MM], whatever the
    network and the file system do, the requests of a run of [main] are
    the listing at [.../browse/<YYYY>/<MM>/<DD>] and then
    [<listing>/<name>], once each and in order, for the first names the
    extractor took from that listing (all of them when no download is
    cut short by an exception); nothing else is requested. *)
Theorem main_requests_listing_then_names
    (image_types_line date_time : str) (w w' : world FS)
    (r : result unit) :
  timestamp_form date_time = true ->
  run_main image_types_line date_time w = (r, w') ->
  exists names,
    gets w'
    = gets w ++ browse_url date_time
        :: List.map (fun name => browse_url date_time ++ [slash] ++ name)
             names
    /\ (names = []
        \/ exists response rest,
             network (gets w) (browse_url date_time) = inr response
             /\ extract_image_names soup_find_pre_text (text response)
                  (split_ws image_types_line) date_time
                = Ok (names ++ rest)).
Proof.
  intros Hf.
  rewrite (main_run _ _ _ _ _ _ _ _ _ (timestamp_form_split _ Hf)).
  rewrite (listing_url_of_timestamp _ Hf).
  set (url := browse_url date_time).
  rewrite fetch_html_content_run.
  assert (Hstop : forall (r0 : result unit) fs0 logs0 calls0,
             (r0, World fs0 logs0 (gets w ++ [url]) calls0) = (r, w') ->
             exists names,
               gets w' = gets w ++ url
                           :: List.map (fun name => url ++ [slash] ++ name)
                                names
               /\ (names = []
                   \/ exists response rest,
                        network (gets w) url = inr response
                        /\ extract_image_names soup_find_pre_text
                             (text response) (split_ws image_types_line)
                             date_time = Ok (names ++ rest))).
  { intros r0 fs0 logs0 calls0 [= _ <-]. exists []. split; [|left];
      reflexivity. }
  destruct (network (gets w) url) as [e|response] eqn:Hnet;
    cbv beta iota zeta; [destruct e; apply Hstop|].
  destruct (error_status response); cbv beta iota zeta; [apply Hstop|].
  destruct (str_is_empty (text response)); [apply Hstop|].
  destruct (extract_image_names soup_find_pre_text (text response)
              (split_ws image_types_line) date_time)
    as [[|name names]|e] eqn:Hnames; [apply Hstop | | apply Hstop].
  rewrite download_images_run;
    [| reflexivity | rewrite (timestamp_form_folder _ Hf); reflexivity].
  rewrite (timestamp_form_folder _ Hf), create_folder_if_not_exists_run.
  cbn [fs logs gets calls].
  assert (Hloop : forall w2,
             gets w2 = gets w ++ [url] ->
             match run_loop (VStr url) (destination_folder date_time)
                     (name :: names) w2 with
             | (Ok _, w3) => logging_info (lit "Execution completed") w3
             | (Raise e, w3) => (Raise e, w3)
             end = (r, w') ->
             exists names0,
               gets w' = gets w ++ url
                           :: List.map (fun n => url ++ [slash] ++ n) names0
               /\ (names0 = []
                   \/ exists response0 rest,
                        @inr exn Response response = inr response0
                        /\ extract_image_names soup_find_pre_text
                             (text response0) (split_ws image_types_line)
                             date_time = Ok (names0 ++ rest))).
  { intros w2 Hgets2.
    destruct (run_loop (VStr url) (destination_folder date_time)
                (name :: names) w2) as [r3 w3] eqn:Hrun.
    destruct (download_loop_attempts network http_error_message repr
                _ _ _ _ _ _ Hrun) as (tried & rest & Hsplit & Hgets3 & _).
    intros Hend.
    assert (Hgets' : gets w' = gets w3).
    { destruct r3 as [[]|e]; [unfold logging_info in Hend|];
        injection Hend as _ <-; reflexivity. }
    exists tried. split.
    - rewrite Hgets', Hgets3, Hgets2, <- app_assoc. reflexivity.
    - right. exists response, rest. split; [reflexivity|].
      rewrite Hnames, Hsplit. reflexivity. }
  destruct (negb (path_rejected (destination_folder date_time))
            && path_exists (destination_folder date_time) (fs w)).
  - apply Hloop. reflexivity.
  - destruct (makedirs (destination_folder date_time) (fs w))
      as [[msg|] fs']; [apply Hstop|].
    destruct (path_rejected (destination_folder date_time));
      [apply Hstop|].
    apply Hloop. reflexivity.
Qed.

(** X12.  For a timestamp of the form, a listing that yields names none
    of which holds a code point the interpreter refuses in a path, a
    client that raises nothing but RequestException and a folder that
    exists or can be created, [main] returns whatever happens to the
    downloads: it has requested the listing and then every name once,
    and its last record is [Execution completed]. *)
Theorem main_completes_after_downloads
    (image_types_line date_time : str) (response : Response)
    (name : str) (names : list str) (w : world FS) :
  timestamp_form date_time = true ->
  raises_only_request_exceptions network ->
  network (gets w) (browse_url date_time) = inr response ->
  error_status response = false ->
  text response <> [] ->
  extract_image_names soup_find_pre_text (text response)
    (split_ws image_types_line) date_time = Ok (name :: names) ->
  forallb (fun n => negb (path_rejected n)) (name :: names) = true ->
  path_exists (destination_folder date_time) (fs w)
  || match fst (makedirs (destination_folder date_time) (fs w)) with
     | None => true
     | Some _ => false
     end = true ->
  exists w' earlier,
    run_main image_types_line date_time w = (Ok tt, w')
    /\ gets w'
       = gets w ++ browse_url date_time
           :: List.map (fun n => browse_url date_time ++ [slash] ++ n)
                (name :: names)
    /\ logs w'
       = earlier ++ [LogRecord INFO (lit "Execution completed")]
    /\ (length (logs w) + length (name :: names) <= length earlier)%nat.
Proof.
  intros Hf Hclient Hnet Hstatus Htext Hnames Hpaths Hfolder.
  rewrite (main_run _ _ _ _ _ _ _ _ _ (timestamp_form_split _ Hf)).
  rewrite (listing_url_of_timestamp _ Hf), fetch_html_content_run.
  set (url := browse_url date_time) in *.
  rewrite Hnet, Hstatus. cbv beta iota zeta.
  destruct (text response) as [|c html]; [congruence|].
  cbn [str_is_empty]. rewrite Hnames.
  rewrite download_images_run;
    [| reflexivity | rewrite (timestamp_form_folder _ Hf); reflexivity].
  rewrite (timestamp_form_folder _ Hf), create_folder_if_not_exists_run.
  rewrite (destination_folder_accepted _ Hf).
  cbn [negb andb fs logs gets calls].
  assert (Haccepted :
            forallb (fun n =>
                       negb (path_rejected
                               (posixpath_join
                                  (destination_folder date_time) [n])))
              (name :: names) = true).
  { apply forallb_forall. intros n Hn.
    apply (proj1 (forallb_forall _ _) Hpaths) in Hn.
    apply negb_true_iff in Hn. apply negb_true_iff.
    exact (destination_path_accepted _ _ Hf Hn). }
  assert (Hloop : forall w2,
             gets w2 = gets w ++ [url] ->
             (length (logs w) <= length (logs w2))%nat ->
             exists w' earlier,
               match run_loop (VStr url) (destination_folder date_time)
                       (name :: names) w2 with
               | (Ok _, w3) => logging_info (lit "Execution completed") w3
               | (Raise e, w3) => (Raise e, w3)
               end = (Ok tt, w')
               /\ gets w'
                  = gets w ++ url
                      :: List.map (fun n => url ++ [slash] ++ n)
                           (name :: names)
               /\ logs w'
                  = earlier ++ [LogRecord INFO (lit "Execution completed")]
               /\ (length (logs w) + length (name :: names)
                   <= length earlier)%nat).
  { intros w2 Hgets2 Hlogs2.
    destruct (download_loop_returns network http_error_message repr
                (VStr url) (destination_folder date_time)
                (name :: names) w2 Hclient Haccepted)
      as (w3 & Hrun & Hgets3 & _ & Hlogs3).
    rewrite Hrun. unfold logging_info.
    eexists. exists (logs w3). split; [reflexivity|]. cbn [gets logs].
    split; [|split; [reflexivity|]].
    - rewrite Hgets3, Hgets2, <- app_assoc. reflexivity.
    - rewrite Hlogs3. lia. }
  destruct (path_exists (destination_folder date_time) (fs w)).
  - apply Hloop; cbn [gets logs]; [reflexivity|].
    rewrite app_nil_r. lia.
  - cbn [orb] in Hfolder.
    destruct (makedirs (destination_folder date_time) (fs w))
      as [[msg|] fs']; [discriminate|].
    apply Hloop; cbn [gets logs]; [reflexivity|].
    rewrite app_nil_r, length_app. lia.
Qed.


(** X14.  In the loop of [download_images], a download that fails with
    an exception [download_image] has a handler for (a RequestException
    or an OSError from the GET, a 4xx or 5xx status, an OSError from the
    write) does not stop the loop: that name is requested once, one error
    is logged for it, and the loop goes on with the names after it. *)
Theorem download_loop_continues_after_handled_failure
    (url_base : pyval) (folder_path : str) (before : list str)
    (name : str) (after : list str) (w w1 : world FS) :
  run_loop url_base folder_path before w = (Ok tt, w1) ->
  download_fails network
    (format repr url_base ++ [slash] ++ name)
    (posixpath_join folder_path [name]) w1 = true ->
  exists w2 record,
    download_one network http_error_message repr url_base folder_path
      name w1 = (Ok tt, w2)
    /\ logs w2 = logs w1 ++ [record]
    /\ levelname record = ERROR
    /\ gets w2 = gets w1 ++ [format repr url_base ++ [slash] ++ name]
    /\ run_loop url_base folder_path (before ++ name :: after) w
       = run_loop url_base folder_path after w2.
Proof.
  intros Hbefore Hfails.
  assert (Hone : exists w2 record,
             download_one network http_error_message repr url_base
               folder_path name w1 = (Ok tt, w2)
             /\ logs w2 = logs w1 ++ [record]
             /\ levelname record = ERROR
             /\ gets w2
                = gets w1 ++ [format repr url_base ++ [slash] ++ name]).
  { unfold download_one. rewrite download_image_run.
    unfold download_fails in Hfails. cbv zeta.
    destruct (network (gets w1) (format repr url_base ++ [slash] ++ name))
      as [e|response].
    - destruct e; try discriminate;
        do 2 eexists; repeat split; reflexivity.
    - destruct (error_status response);
        [do 2 eexists; repeat split; reflexivity|].
      cbn [orb] in Hfails.
      destruct (path_rejected (posixpath_join folder_path [name]));
        [discriminate|].
      destruct (write_file (posixpath_join folder_path [name])
                  (content response) (fs w1)) as [[msg|] fs'];
        [|discriminate].
      do 2 eexists. repeat split; reflexivity. }
  destruct Hone as (w2 & record & Hone & Hlogs & Hlevel & Hgets).
  exists w2, record. repeat split; try assumption.
  rewrite for_each_app, Hbefore. cbn [for_each].
  unfold mbind, M_bind. rewrite Hone. reflexivity.
Qed.


End MoreStages.

(** ** The further properties on the example environments *)

(** X4, the witness: a timestamp of three spaces. *)
Lemma main_blank_timestamp_raises_witness :
  main plain_find_pre_text unreachable plain_message plain_repr
    (lit "HMIIC") (lit "   ") empty_world
  = (Raise IndexError, empty_world).
Proof.
  apply (main_blank_timestamp_raises plain_find_pre_text unreachable
           plain_message plain_repr (lit "HMIIC") (lit "   ") empty_world).
  vm_compute. reflexivity.
Defined.

(** X5, the witness: the date alone, with a listing that has a matching
    line. *)
Lemma main_date_only_never_downloads_witness :
  calls (snd run_with_date_only)
  = calls empty_world
      ++ [call_fetch_html_content (listing_url (lit "2024-08-02"))]
  /\ gets (snd run_with_date_only)
     = gets empty_world ++ [listing_url (lit "2024-08-02")]
  /\ fs (snd run_with_date_only) = fs empty_world
  /\ (forall response name names,
         constant_server listing_with_match (gets empty_world)
           (listing_url (lit "2024-08-02")) = inr response ->
         error_status response = false ->
         text response <> [] ->
         extract_image_names plain_find_pre_text (text response)
           (split_ws (lit "HMIIC")) (lit "2024-08-02")
         = Ok (name :: names) ->
         fst run_with_date_only = Raise IndexError).
Proof.
  apply (main_date_only_never_downloads plain_find_pre_text
           (constant_server listing_with_match) plain_message plain_repr
           (lit "HMIIC") (lit "2024-08-02") (lit "2024-08-02")
           empty_world (snd run_with_date_only) (fst run_with_date_only)).
  - vm_compute. reflexivity.
  - vm_compute. reflexivity.
Defined.

(** That run does raise. *)
Example run_with_date_only_raises :
  fst run_with_date_only = Raise IndexError.
Proof. vm_compute. reflexivity. Qed.

(** X6, the witness: a server that answers 200 with an empty body. *)
Lemma main_empty_body_returns_silently_witness :
  main plain_find_pre_text (constant_server empty_page) plain_message
    plain_repr (lit "HMIIC") example_date_time empty_world
  = (Ok tt,
     World (fs empty_world) (logs empty_world)
       (gets empty_world ++ [listing_url (lit "2024-08-02")])
       (calls empty_world
          ++ [call_fetch_html_content (listing_url (lit "2024-08-02"))])).
Proof.
  apply (main_empty_body_returns_silently plain_find_pre_text
           (constant_server empty_page) plain_message plain_repr
           (lit "HMIIC") example_date_time (lit "2024-08-02")
           [lit "01:10"] empty_page empty_world);
    vm_compute; reflexivity.
Defined.

(** X7, the witness: a dictionary with none of the path entries. *)
Lemma download_images_path_entry_not_str_raises_witness :
  download_images unreachable plain_message plain_repr
    params_without_paths empty_world
  = (Raise TypeError,
     World (fs empty_world) (logs empty_world) (gets empty_world)
       (calls empty_world ++ [call_download_images params_without_paths])).
Proof.
  apply (download_images_path_entry_not_str_raises unreachable
           plain_message plain_repr params_without_paths empty_world).
  vm_compute. reflexivity.
Defined.

(** X8, the witness: a dictionary without [image_names]. *)
Lemma download_images_rejects_missing_parameters_witness :
  download_images unreachable plain_message plain_repr
    params_without_image_names empty_world
  = (Ok tt,
     World (fs empty_world)
       (logs empty_world
          ++ [LogRecord ERROR (lit "Error: Missing required parameters.")])
       (gets empty_world)
       (calls empty_world
          ++ [call_download_images params_without_image_names])).
Proof.
  apply (download_images_rejects_missing_parameters unreachable
           plain_message plain_repr params_without_image_names
           BASE_IMAGE_DIR (lit "2024-08-02") (lit "01-10") empty_world);
    vm_compute; reflexivity.
Defined.

(** X9, the witness: the dictionary of [main] on a read-only file
    system. *)
Lemma download_images_folder_failure_aborts_witness :
  download_images (constant_server listing_with_match) plain_message
    plain_repr
    (params_download_images example_url
       [lit "20240802_011000_1024_HMIIC.jpg"] (lit "2024-08-02")
       (lit "01-10"))
    read_only_world
  = (Raise (OSError (lit "Read-only file system")),
     World ReadOnly (logs read_only_world) (gets read_only_world)
       (calls read_only_world
          ++ [call_download_images
                (params_download_images example_url
                   [lit "20240802_011000_1024_HMIIC.jpg"]
                   (lit "2024-08-02") (lit "01-10"));
              call_create_folder_if_not_exists
                (posixpath_join BASE_IMAGE_DIR
                   [lit "2024-08-02"; lit "01-10"])])).
Proof.
  apply (download_images_folder_failure_aborts
           (constant_server listing_with_match) plain_message plain_repr
           example_url (lit "20240802_011000_1024_HMIIC.jpg") []
           (lit "2024-08-02") (lit "01-10") (lit "Read-only file system")
           ReadOnly read_only_world);
    vm_compute; reflexivity.
Defined.

(** X10, the witness: two names, the network down. *)
Lemma download_loop_without_network_writes_nothing_witness :
  exists records,
    for_each [lit "a_HMIIC.jpg"; lit "b_HMIIC.jpg"]
      (download_one unreachable plain_message plain_repr
         (VStr example_url) example_folder) empty_world
    = (Ok tt,
       World (fs empty_world) (logs empty_world ++ records)
         (gets empty_world
            ++ List.map (fun name => format plain_repr (VStr example_url)
                                       ++ [slash] ++ name)
                 [lit "a_HMIIC.jpg"; lit "b_HMIIC.jpg"])
         (calls empty_world
            ++ List.map
                 (fun name =>
                    call_download_image
                      (format plain_repr (VStr example_url)
                         ++ [slash] ++ name)
                      (posixpath_join example_folder [name]))
                 [lit "a_HMIIC.jpg"; lit "b_HMIIC.jpg"]))
    /\ length records = length [lit "a_HMIIC.jpg"; lit "b_HMIIC.jpg"]
    /\ forallb is_error records = true.
Proof.
  apply (download_loop_without_network_writes_nothing unreachable
           plain_message plain_repr (VStr example_url) example_folder
           [lit "a_HMIIC.jpg"; lit "b_HMIIC.jpg"] empty_world).
  intros history url. exact I.
Defined.

(** X11, the witness: the run against the listing with one matching
    line. *)
Lemma main_requests_listing_then_names_witness :
  exists names,
    gets (snd run_with_match)
    = gets empty_world ++ browse_url example_date_time
        :: List.map
             (fun name => browse_url example_date_time ++ [slash] ++ name)
             names
    /\ (names = []
        \/ exists response rest,
             constant_server listing_with_match (gets empty_world)
               (browse_url example_date_time) = inr response
             /\ extract_image_names plain_find_pre_text (text response)
                  (split_ws (lit "HMIIC")) example_date_time
                = Ok (names ++ rest)).
Proof.
  apply (main_requests_listing_then_names plain_find_pre_text
           (constant_server listing_with_match) plain_message plain_repr
           (lit "HMIIC") example_date_time empty_world
           (snd run_with_match) (fst run_with_match));
    vm_compute; reflexivity.
Defined.

(** X12, the witness: the same run. *)
Lemma main_completes_after_downloads_witness :
  exists w' earlier,
    main plain_find_pre_text (constant_server listing_with_match)
      plain_message plain_repr (lit "HMIIC") example_date_time empty_world
    = (Ok tt, w')
    /\ gets w'
       = gets empty_world ++ browse_url example_date_time
           :: List.map
                (fun n => browse_url example_date_time ++ [slash] ++ n)
                [lit "20240802_011000_1024_HMIIC.jpg"]
    /\ logs w'
       = earlier ++ [LogRecord INFO (lit "Execution completed")]
    /\ (length (logs empty_world)
        + length [lit "20240802_011000_1024_HMIIC.jpg"]
        <= length earlier)%nat.
Proof.
  apply (main_completes_after_downloads plain_find_pre_text
           (constant_server listing_with_match) plain_message plain_repr
           (lit "HMIIC") example_date_time listing_with_match
           (lit "20240802_011000_1024_HMIIC.jpg") [] empty_world);
    try (vm_compute; reflexivity).
  - intros history url e. discriminate.
  - vm_compute. discriminate.
Defined.


(** The path of that witness, written out. *)
Example destination_path_of_foo :
  posixpath_join example_folder [lit "FOO.jpg"]
  = lit "images/imagesSDO/2024-08-02/01-10/FOO.jpg".
Proof. vm_compute. reflexivity. Qed.

(** X14, the witness: three names with the network down; the second
    fails like the others and the third is still requested. *)
Lemma download_loop_continues_after_handled_failure_witness :
  exists w2 record,
    download_one unreachable plain_message plain_repr (VStr example_url)
      example_folder (lit "b_HMIIC.jpg") world_after_first_failure
    = (Ok tt, w2)
    /\ logs w2 = logs world_after_first_failure ++ [record]
    /\ levelname record = ERROR
    /\ gets w2
       = gets world_after_first_failure
           ++ [format plain_repr (VStr example_url) ++ [slash]
                 ++ lit "b_HMIIC.jpg"]
    /\ for_each ([lit "a_HMIIC.jpg"]
                   ++ lit "b_HMIIC.jpg" :: [lit "c_HMIIC.jpg"])
         (download_one unreachable plain_message plain_repr
            (VStr example_url) example_folder) empty_world
       = for_each [lit "c_HMIIC.jpg"]
           (download_one unreachable plain_message plain_repr
              (VStr example_url) example_folder) w2.
Proof.
  apply (download_loop_continues_after_handled_failure unreachable
           plain_message plain_repr (VStr example_url) example_folder
           [lit "a_HMIIC.jpg"] (lit "b_HMIIC.jpg") [lit "c_HMIIC.jpg"]
           empty_world world_after_first_failure);
    vm_compute; reflexivity.
Defined.
